(** * Appointment booking backend: slots, appointments, claim and release

    A shallow embedding of the booking routes of [server.js] and of the two
    tables of [schema.sql] they work on ([doctor_slots], [appointments],
    with the [users] rows their joins and foreign keys look at).

    The MySQL store is modelled as a record of tables; every SQL statement of
    the routes is one function over it, named after what the statement does,
    and every route is the composition of its statements in source order.
    A transaction ([beginTransaction] .. [commit] / [rollback]) runs its
    statements on a working copy and either installs it or drops it.

    Two things the routes leave to MySQL and to the mysql2 driver are
    parameters of the model: what a [DATETIME] column makes of a string that
    names no time of the calendar ([datetime_cast]), and what a [DATETIME]
    becomes on its way through a handler as a JS [Date], which depends on
    the time zone of the process ([time_zone]). *)

From Stdlib Require Import ZArith List Bool String Ascii Lia Relations.
From Stdlib Require Import Sorted Permutation.
Import ListNotations.

Local Open Scope string_scope.
Local Open Scope list_scope.
Local Open Scope Z_scope.

(** ** Tables (schema.sql) *)

(** A [DATETIME] column value, held as its text ['YYYY-MM-DD HH:MM:SS']; on
    such values the order of the text is the order of the times. *)
Definition DATETIME := string.

(** What MySQL stores in a [DATETIME] column, under [INSERT IGNORE], for a
    string of the shape the routes let through: the string itself when it
    names a time of the calendar; for any other ('2025-02-30 10:00:00',
    '2025-13-45 99:99:99') the value MySQL adjusts it to, with a warning
    and no error. *)
Definition datetime_cast := string -> DATETIME.

(** The cast on strings that name a time of the calendar. *)
Definition as_written : datetime_cast := fun s => s.

(** A JS [Date] in a handler, given by what mysql2 writes for it when it is
    a query parameter: its wall-clock time in the time zone of the process,
    or [NULL] ([None]) when the [Date] is invalid. *)
Definition Date := option DATETIME.

(** The pool is created without [dateStrings] (server.js, 45-53), so mysql2
    hands a [DATETIME] column to a handler as a [Date]: the instant that has
    this wall-clock time in the time zone of the process.  A [time_zone]
    gives the [Date] read from a [DATETIME], hence the time written back
    for it: the time read, for a time the zone has; a later time, for a
    time the zone skips (the hour a daylight-saving change jumps over);
    [None] when the [Date] made of it is invalid. *)
Definition time_zone := DATETIME -> Date.

(** A zone that has every time: what is read is what is written back. *)
Definition keeps_time : time_zone := fun t => Some t.

(** [users]: only the columns the booking statements read. *)
Record user := mk_user {
  u_id : Z;
  u_role : string
}.

(** [doctor_slots (id, doctor_user_id, slot_at, is_booked)];
    [PRIMARY KEY (id)], [UNIQUE KEY ux_doctor_slot (doctor_user_id, slot_at)]. *)
Record doctor_slot := mk_slot {
  ds_id : Z;
  ds_doctor_user_id : Z;
  ds_slot_at : DATETIME;
  ds_is_booked : bool
}.

(** [appointments (id, patient_user_id, doctor_user_id, scheduled_at, status,
    created_at)]; [PRIMARY KEY (id)],
    [UNIQUE KEY ux_appt_doctor_time (doctor_user_id, scheduled_at)]. *)
Record appointment := mk_appt {
  a_id : Z;
  a_patient_user_id : Z;
  a_doctor_user_id : Z;
  a_scheduled_at : DATETIME;
  a_status : string;
  a_created_at : DATETIME
}.

(** The store.  The two [AUTO_INCREMENT] counters are part of it; a value a
    statement has reserved is not given back when the row is skipped or the
    transaction rolled back. *)
Record db := mk_db {
  users : list user;
  doctor_slots : list doctor_slot;
  appointments : list appointment;
  doctor_slots_auto_increment : Z;
  appointments_auto_increment : Z
}.

Definition set_doctor_slots (rows : list doctor_slot) (d : db) : db :=
  mk_db (users d) rows (appointments d)
        (doctor_slots_auto_increment d) (appointments_auto_increment d).

Definition set_appointments (rows : list appointment) (d : db) : db :=
  mk_db (users d) (doctor_slots d) rows
        (doctor_slots_auto_increment d) (appointments_auto_increment d).

Definition set_is_booked (b : bool) (ds : doctor_slot) : doctor_slot :=
  mk_slot (ds_id ds) (ds_doctor_user_id ds) (ds_slot_at ds) b.

(** ** Requests and responses *)

(** [req.user], the verified token payload [{ id, role }]. *)
Record jwt_user := mk_jwt {
  jwt_id : Z;
  jwt_role : string
}.

(** The bodies the booking routes send with [res.json].  [scheduled_at] is
    the [Date] the handler holds ([res.json] prints its instant). *)
Inductive json :=
| Message (message : string)
| Booking (id patient_user_id doctor_user_id : Z) (scheduled_at : Date)
          (slot_id : Z)
| Inserted (inserted : Z).

Record response := res {
  res_status : Z;
  res_json : json
}.

(** What a statement that can break a constraint gives back. *)
Inductive sql_error :=
| ER_DUP_ENTRY | ER_NO_REFERENCED_ROW | ER_BAD_NULL_ERROR.

Inductive query_result (A : Type) :=
| Ok (a : A)
| SqlError (e : sql_error).
Arguments Ok {A} a.
Arguments SqlError {A} e.

(** ** Helpers (server.js, 56-62) *)

Definition is_digit (c : ascii) : bool :=
  let n := N_of_ascii c in (48 <=? n)%N && (n <=? 57)%N.

(** Matches a string against a pattern given as text, [d] standing for
    [\d] and every other character for itself; both must end together
    (the pattern is anchored by [^] and [$]). *)
Fixpoint matches (pattern s : string) : bool :=
  match pattern, s with
  | EmptyString, EmptyString => true
  | String p pattern', String c s' =>
      (if Ascii.eqb p "d" then is_digit c else Ascii.eqb p c) && matches pattern' s'
  | _, _ => false
  end.

(** [/^\d{4}-\d{2}-\d{2}$/.test(dateStr)] *)
Definition validateDateISO (dateStr : string) : bool :=
  matches "dddd-dd-dd" dateStr.

(** [/^\d{4}-\d{2}-\d{2} \d{2}:\d{2}:\d{2}$/.test(dt)] *)
Definition validateDateTimeSQL (dt : string) : bool :=
  matches "dddd-dd-dd dd:dd:dd" dt.

(** ** Middleware (server.js, 209-216) *)

(** [allowedRoles.includes(req.user.role)]; the route answers 403 when this
    is false. *)
Definition authorizeRoles (allowedRoles : list string) (u : jwt_user) : bool :=
  existsb (String.eqb (jwt_role u)) allowedRoles.

Definition access_denied : response :=
  res 403 (Message "Access denied: insufficient role").

(** ** The SQL statements of the booking routes *)

Definition is_doctor_user (uid : Z) (d : db) : bool :=
  existsb (fun u => (u_id u =? uid) && (u_role u =? "doctor")%string) (users d).

Definition is_user (uid : Z) (d : db) : bool :=
  existsb (fun u => u_id u =? uid) (users d).

(** [SELECT ds.id, ds.slot_at, ds.doctor_user_id, ds.is_booked
     FROM doctor_slots ds
     JOIN users u ON u.id = ds.doctor_user_id AND u.role = 'doctor'
     WHERE ds.id = ?], first row. *)
Definition select_slot_join_doctor (doctorSlotId : Z) (d : db)
  : option doctor_slot :=
  find (fun ds => (ds_id ds =? doctorSlotId)
                  && is_doctor_user (ds_doctor_user_id ds) d)
       (doctor_slots d).

(** The [WHERE id = ? AND is_booked = 0] of the conditional update. *)
Definition free_with_id (doctorSlotId : Z) (ds : doctor_slot) : bool :=
  (ds_id ds =? doctorSlotId) && negb (ds_is_booked ds).

(** [UPDATE doctor_slots SET is_booked = 1 WHERE id = ? AND is_booked = 0];
    gives [affectedRows] and the updated store. *)
Definition update_slot_set_booked (doctorSlotId : Z) (d : db) : Z * db :=
  (Z.of_nat (List.length (filter (free_with_id doctorSlotId) (doctor_slots d))),
   set_doctor_slots
     (map (fun ds => if free_with_id doctorSlotId ds
                     then set_is_booked true ds else ds)
          (doctor_slots d)) d).

(** The composite key [(doctor_user_id, scheduled_at)] of an appointment
    row, compared with a doctor and an instant. *)
Definition appt_at (doctorId : Z) (at_ : DATETIME) (a : appointment) : bool :=
  (a_doctor_user_id a =? doctorId) && (a_scheduled_at a =? at_)%string.

(** The composite key [(doctor_user_id, slot_at)] of a slot row. *)
Definition slot_at (doctorId : Z) (at_ : DATETIME) (ds : doctor_slot) : bool :=
  (ds_doctor_user_id ds =? doctorId) && (ds_slot_at ds =? at_)%string.

(** [INSERT INTO appointments (patient_user_id, doctor_user_id, scheduled_at,
     status, created_at) VALUES (?, ?, ?, ?, NOW())], [scheduledAt] being a
    [Date].  The statement fails when the [Date] is written [NULL]
    ([scheduled_at] is [NOT NULL]), on a duplicate [ux_appt_doctor_time]
    key, and on a patient or doctor that is no [users] row; otherwise the
    row takes the next [AUTO_INCREMENT] value (which the store keeps above
    every id of the table, see [store_ok]).  Gives [insertId]. *)
Definition insert_appointment (patientId doctorId : Z) (scheduledAt : Date)
    (status : string) (now : DATETIME) (d : db) : query_result Z * db :=
  match scheduledAt with
  | None => (SqlError ER_BAD_NULL_ERROR, d)
  | Some scheduled_at =>
      let insertId := appointments_auto_increment d in
      let d' := mk_db (users d) (doctor_slots d) (appointments d)
                      (doctor_slots_auto_increment d) (insertId + 1) in
      if existsb (appt_at doctorId scheduled_at) (appointments d)
      then (SqlError ER_DUP_ENTRY, d')
      else if negb (is_user patientId d && is_user doctorId d)
      then (SqlError ER_NO_REFERENCED_ROW, d')
      else (Ok insertId,
            set_appointments
              (appointments d
                 ++ [mk_appt insertId patientId doctorId scheduled_at status
                             now])
              d')
  end.

(** [conn.rollback()]: the tables as they were at [beginTransaction]; the
    counters stay where the transaction left them. *)
Definition rollback (before tx : db) : db :=
  mk_db (users before) (doctor_slots before) (appointments before)
        (doctor_slots_auto_increment tx) (appointments_auto_increment tx).

(** ** POST /appointments (server.js, 285-344) *)

(** The route's handler, for [req.user.id] and [req.body.doctorSlotId];
    [0] stands for every falsy [doctorSlotId] (a missing one too).
    [slot.slot_at] is a [Date]: the appointment is inserted, and the answer
    given, with the time that [tz] makes of the slot's. *)
Definition book_appointment (tz : time_zone) (patientId doctorSlotId : Z)
    (now : DATETIME) (d : db) : response * db :=
  if doctorSlotId =? 0
  then (res 400 (Message "doctorSlotId is required"), d)
  else
    match select_slot_join_doctor doctorSlotId d with
    | None => (res 404 (Message "Slot not found"), d)
    | Some slot =>
        if ds_is_booked slot
        then (res 409 (Message "Slot already booked"), d)
        else
          let doctorId := ds_doctor_user_id slot in
          let scheduledAt := tz (ds_slot_at slot) in
          (* conn.beginTransaction() *)
          let (affectedRows, tx1) := update_slot_set_booked doctorSlotId d in
          if affectedRows =? 0
          then (res 409 (Message "Slot already booked (race)"), rollback d tx1)
          else
            match insert_appointment patientId doctorId scheduledAt
                                     "booked" now tx1 with
            | (Ok insertId, tx2) =>
                (* conn.commit() *)
                (res 201 (Booking insertId patientId doctorId scheduledAt
                                  doctorSlotId), tx2)
            | (SqlError _, tx2) =>
                (* catch (txErr): conn.rollback() *)
                (res 500 (Message "Failed to book slot"), rollback d tx2)
            end
    end.

Definition post_appointments (tz : time_zone) (u : jwt_user)
    (doctorSlotId : Z) (now : DATETIME) (d : db) : response * db :=
  if authorizeRoles ["patient"] u
  then book_appointment tz (jwt_id u) doctorSlotId now d
  else (access_denied, d).

(** ** DELETE /appointments/:id (server.js, 480-520) *)

(** [SELECT * FROM appointments WHERE id = ?], first row. *)
Definition select_appointment (apptId : Z) (d : db) : option appointment :=
  find (fun a => a_id a =? apptId) (appointments d).

(** [DELETE FROM appointments WHERE id = ?] *)
Definition delete_appointment (apptId : Z) (d : db) : db :=
  set_appointments
    (filter (fun a => negb (a_id a =? apptId)) (appointments d)) d.

(** [UPDATE doctor_slots SET is_booked = 0
     WHERE doctor_user_id = ? AND slot_at = ?], the second parameter being
    a [Date]; [slot_at = NULL] holds of no row. *)
Definition update_slot_set_free (doctorId : Z) (at_ : Date) (d : db) : db :=
  match at_ with
  | None => d
  | Some at_ =>
      set_doctor_slots
        (map (fun ds => if slot_at doctorId at_ ds
                        then set_is_booked false ds else ds)
             (doctor_slots d)) d
  end.

(** The route has no [authorizeRoles]: the handler decides on [req.user]
    itself.  [appointment.scheduled_at] is a [Date]: the slot released is
    the one at the time [tz] makes of the appointment's. *)
Definition cancel_appointment (tz : time_zone) (u : jwt_user) (apptId : Z)
    (d : db) : response * db :=
  match select_appointment apptId d with
  | None => (res 404 (Message "Appointment not found"), d)
  | Some appointment =>
      let isPatient := (a_patient_user_id appointment =? jwt_id u)
                       && (jwt_role u =? "patient")%string in
      let isDoctor := (a_doctor_user_id appointment =? jwt_id u)
                      && (jwt_role u =? "doctor")%string in
      if negb isPatient && negb isDoctor
      then (res 403 (Message "Not authorized to cancel this appointment"), d)
      else
        (* conn.beginTransaction() *)
        let tx1 := delete_appointment apptId d in
        let tx2 := update_slot_set_free (a_doctor_user_id appointment)
                                        (tz (a_scheduled_at appointment))
                                        tx1 in
        (* conn.commit() *)
        (res 200 (Message "Appointment canceled"), tx2)
  end.

(** ** POST /doctor/slots (server.js, 425-447) *)

(** [INSERT IGNORE INTO doctor_slots (doctor_user_id, slot_at) VALUES ?],
    the values being the caller's id and the strings of the request: row
    by row; the column takes what [cast] makes of the string; a row whose
    [(doctor_user_id, slot_at)] is already there, or whose doctor is no
    [users] row, is skipped; [is_booked] defaults to 0.  Gives
    [affectedRows], the number of rows inserted. *)
Fixpoint insert_ignore_doctor_slots (cast : datetime_cast)
    (values : list (Z * string)) (d : db) : Z * db :=
  match values with
  | [] => (0, d)
  | (doctorId, s) :: values' =>
      let slotAt := cast s in
      let id := doctor_slots_auto_increment d in
      let d1 := mk_db (users d) (doctor_slots d) (appointments d)
                      (id + 1) (appointments_auto_increment d) in
      if existsb (slot_at doctorId slotAt) (doctor_slots d)
         || negb (is_user doctorId d)
      then insert_ignore_doctor_slots cast values' d1
      else
        let (n, d2) :=
          insert_ignore_doctor_slots cast values'
            (set_doctor_slots
               (doctor_slots d ++ [mk_slot id doctorId slotAt false]) d1) in
        (n + 1, d2)
  end.

Definition double_quote : string := String (ascii_of_nat 34) EmptyString.

Definition invalid_slot_format (s : string) : string :=
  ("Invalid slot format: " ++ s ++ ". Use " ++ double_quote
     ++ "YYYY-MM-DD HH:MM:SS" ++ double_quote)%string.

(** The handler, for [req.user.id] and [req.body.slots] (an array of
    strings). *)
Definition create_slots (cast : datetime_cast) (doctorId : Z)
    (slots : list string) (d : db) : response * db :=
  if (List.length slots =? 0)%nat
  then (res 400 (Message "slots (array) required"), d)
  else
    match find (fun s => negb (validateDateTimeSQL s)) slots with
    | Some s => (res 400 (Message (invalid_slot_format s)), d)
    | None =>
        let values := map (fun s => (doctorId, s)) slots in
        let (affectedRows, d') := insert_ignore_doctor_slots cast values d in
        (res 201 (Inserted affectedRows), d')
    end.

Definition post_doctor_slots (cast : datetime_cast) (u : jwt_user)
    (slots : list string) (d : db) : response * db :=
  if authorizeRoles ["doctor"] u
  then create_slots cast (jwt_id u) slots d
  else (access_denied, d).

(** ** DELETE /doctor/slots/:id (server.js, 463-478) *)

(** [SELECT * FROM doctor_slots WHERE id = ? AND doctor_user_id = ?],
    first row. *)
Definition select_slot_of_doctor (slotId doctorId : Z) (d : db)
  : option doctor_slot :=
  find (fun ds => (ds_id ds =? slotId) && (ds_doctor_user_id ds =? doctorId))
       (doctor_slots d).

(** [DELETE FROM doctor_slots WHERE id = ?] *)
Definition delete_doctor_slot (slotId : Z) (d : db) : db :=
  set_doctor_slots
    (filter (fun ds => negb (ds_id ds =? slotId)) (doctor_slots d)) d.

Definition delete_slot (doctorId slotId : Z) (d : db) : response * db :=
  match select_slot_of_doctor slotId doctorId d with
  | None => (res 404 (Message "Slot not found"), d)
  | Some slot =>
      if ds_is_booked slot
      then (res 409 (Message "Cannot delete a booked slot"), d)
      else (res 200 (Message "Slot deleted"), delete_doctor_slot slotId d)
  end.

Definition delete_doctor_slots_id (u : jwt_user) (slotId : Z) (d : db)
  : response * db :=
  if authorizeRoles ["doctor"] u
  then delete_slot (jwt_id u) slotId d
  else (access_denied, d).

(** ** GET /doctors/:username/slots, the slot query (server.js, 411-418) *)

Fixpoint insert_by_slot_at (ds : doctor_slot) (l : list doctor_slot)
  : list doctor_slot :=
  match l with
  | [] => [ds]
  | x :: l' => if String.leb (ds_slot_at ds) (ds_slot_at x)
               then ds :: l else x :: insert_by_slot_at ds l'
  end.

(** [ORDER BY slot_at ASC] *)
Definition order_by_slot_at (l : list doctor_slot) : list doctor_slot :=
  fold_right insert_by_slot_at [] l.

(** [SELECT id AS slot_id, slot_at, is_booked FROM doctor_slots
     WHERE doctor_user_id = ? AND slot_at >= NOW() ORDER BY slot_at ASC];
    [now] is the store's clock. *)
Definition select_future_slots (doctorId : Z) (now : DATETIME) (d : db)
  : list (Z * DATETIME * bool) :=
  map (fun ds => (ds_id ds, ds_slot_at ds, ds_is_booked ds))
      (order_by_slot_at
         (filter (fun ds => (ds_doctor_user_id ds =? doctorId)
                            && String.leb now (ds_slot_at ds))
                 (doctor_slots d))).

(** ** The requests of the booking protocol, run one after the other *)

Inductive request :=
| ReqBook (u : jwt_user) (doctorSlotId : Z) (now : DATETIME)
| ReqCancel (u : jwt_user) (apptId : Z).

Definition handle (tz : time_zone) (r : request) (d : db) : response * db :=
  match r with
  | ReqBook u doctorSlotId now => post_appointments tz u doctorSlotId now d
  | ReqCancel u apptId => cancel_appointment tz u apptId d
  end.

(** The stores after each request of [rs], in order: one per commit (or
    rollback) boundary. *)
Fixpoint commits (tz : time_zone) (rs : list request) (d : db) : list db :=
  match rs with
  | [] => []
  | r :: rs' => let d' := snd (handle tz r d) in d' :: commits tz rs' d'
  end.

(** ** What the schema keeps true of the store, and the booking invariant *)

Definition slot_key (ds : doctor_slot) : Z * DATETIME :=
  (ds_doctor_user_id ds, ds_slot_at ds).

Definition appt_key (a : appointment) : Z * DATETIME :=
  (a_doctor_user_id a, a_scheduled_at a).

(** What the schema keeps true: primary keys, the two unique keys, and
    counters above the ids handed out. *)
Record store_ok (d : db) : Prop := {
  slots_pk : NoDup (map ds_id (doctor_slots d));
  slots_ux : NoDup (map slot_key (doctor_slots d));
  slots_ai : forall ds, In ds (doctor_slots d) ->
                        ds_id ds < doctor_slots_auto_increment d;
  appts_pk : NoDup (map a_id (appointments d));
  appts_ux : NoDup (map appt_key (appointments d));
  appts_ai : forall a, In a (appointments d) ->
                       a_id a < appointments_auto_increment d
}.

(** Every slot belongs to a [users] row of role doctor: slots are inserted
    by [POST /doctor/slots] only, under the id of the doctor who calls. *)
Definition slots_of_doctors (d : db) : Prop :=
  forall ds, In ds (doctor_slots d) ->
             is_doctor_user (ds_doctor_user_id ds) d = true.

(** The appointment rows under a composite key. *)
Definition appointments_at (doctorId : Z) (at_ : DATETIME) (d : db)
  : list appointment :=
  filter (appt_at doctorId at_) (appointments d).

(** A slot is booked iff exactly one appointment has its
    [(doctor_id, scheduled_time)]. *)
Definition slot_consistent (d : db) (ds : doctor_slot) : Prop :=
  ds_is_booked ds = true <->
  List.length (appointments_at (ds_doctor_user_id ds) (ds_slot_at ds) d) = 1%nat.

Definition booking_invariant (d : db) : Prop :=
  forall ds, In ds (doctor_slots d) -> slot_consistent d ds.

(** The rows of [d'] are the rows of [d]; the counters may have moved on. *)
Definition same_tables (d d' : db) : Prop :=
  users d' = users d
  /\ doctor_slots d' = doctor_slots d
  /\ appointments d' = appointments d
  /\ doctor_slots_auto_increment d <= doctor_slots_auto_increment d'
  /\ appointments_auto_increment d <= appointments_auto_increment d'.

(** *** The same, as checks that compute *)

Definition key_eqb (k1 k2 : Z * DATETIME) : bool :=
  (fst k1 =? fst k2) && (snd k1 =? snd k2)%string.

Fixpoint nodupb {A : Type} (eqb : A -> A -> bool) (l : list A) : bool :=
  match l with
  | [] => true
  | x :: l' => negb (existsb (eqb x) l') && nodupb eqb l'
  end.

Definition store_okb (d : db) : bool :=
  nodupb Z.eqb (map ds_id (doctor_slots d))
  && nodupb key_eqb (map slot_key (doctor_slots d))
  && forallb (fun ds => ds_id ds <? doctor_slots_auto_increment d)
             (doctor_slots d)
  && nodupb Z.eqb (map a_id (appointments d))
  && nodupb key_eqb (map appt_key (appointments d))
  && forallb (fun a => a_id a <? appointments_auto_increment d)
             (appointments d).

Definition slots_of_doctorsb (d : db) : bool :=
  forallb (fun ds => is_doctor_user (ds_doctor_user_id ds) d) (doctor_slots d).

Definition booking_invariantb (d : db) : bool :=
  forallb (fun ds =>
             Bool.eqb (ds_is_booked ds)
               (List.length
                  (appointments_at (ds_doctor_user_id ds) (ds_slot_at ds) d)
                =? 1)%nat)
          (doctor_slots d).

(** ** Requests in flight: POST /appointments racing on one slot

    Every [await] of the handler is a point where another request may run.
    A request in flight is at one of these points; the pool's [SELECT] reads
    the committed store, the transaction works on its own copy.  The
    [UPDATE] takes the lock of the slot row and holds it until [commit] or
    [rollback], so while one request is between its [UPDATE] and its
    [commit], the [UPDATE] of another request for the same row waits.
    All requests of a world are for the same slot: while one of them holds
    the row none of the others writes, so its copy is the committed store
    plus its own writes, and [commit] installs it. *)

Inductive pc :=
| AtSelect                                          (* before line 290 *)
| AtUpdate (slot : doctor_slot)                     (* before line 307 *)
| AtInsert (slot : doctor_slot) (tx1 : db)          (* before line 320 *)
| AtCommit (slot : doctor_slot) (insertId : Z) (tx2 : db)  (* before line 325 *)
| Finished (r : response).

Record task := mk_task {
  t_patientId : Z;
  t_now : DATETIME;
  t_pc : pc
}.

Definition at_pc (t : task) (p : pc) : task :=
  mk_task (t_patientId t) (t_now t) p.

Definition holds_row_lock (t : task) : bool :=
  match t_pc t with
  | AtInsert _ _ | AtCommit _ _ _ => true
  | _ => false
  end.

(** One step of one request for slot [doctorSlotId] on the committed store
    [d]; [None] when the request has answered, or waits for the row lock. *)
Definition task_step (tz : time_zone) (doctorSlotId : Z) (row_locked : bool)
    (d : db) (t : task) : option (db * task) :=
  match t_pc t with
  | AtSelect =>
      Some (d, at_pc t
        (if doctorSlotId =? 0
         then Finished (res 400 (Message "doctorSlotId is required"))
         else
           match select_slot_join_doctor doctorSlotId d with
           | None => Finished (res 404 (Message "Slot not found"))
           | Some slot =>
               if ds_is_booked slot
               then Finished (res 409 (Message "Slot already booked"))
               else AtUpdate slot
           end))
  | AtUpdate slot =>
      if row_locked then None
      else
        let (affectedRows, tx1) := update_slot_set_booked doctorSlotId d in
        if affectedRows =? 0
        then Some (rollback d tx1,
                   at_pc t (Finished
                              (res 409 (Message "Slot already booked (race)"))))
        else Some (d, at_pc t (AtInsert slot tx1))
  | AtInsert slot tx1 =>
      match insert_appointment (t_patientId t) (ds_doctor_user_id slot)
                               (tz (ds_slot_at slot)) "booked" (t_now t)
                               tx1 with
      | (Ok insertId, tx2) => Some (d, at_pc t (AtCommit slot insertId tx2))
      | (SqlError _, tx2) =>
          Some (rollback d tx2,
                at_pc t (Finished (res 500 (Message "Failed to book slot"))))
      end
  | AtCommit slot insertId tx2 =>
      Some (tx2,
            at_pc t (Finished
                       (res 201 (Booking insertId (t_patientId t)
                                         (ds_doctor_user_id slot)
                                         (tz (ds_slot_at slot))
                                         doctorSlotId))))
  | Finished _ => None
  end.

(** The committed store and the requests in flight. *)
Definition world : Type := db * list task.








(** Runs the request at position [i], when it can move. *)
Fixpoint step_at (tz : time_zone) (doctorSlotId : Z) (i : nat) (d : db)
    (before ts : list task) {struct ts} : option world :=
  match ts with
  | [] => None
  | t :: after =>
      match i with
      | O =>
          match task_step tz doctorSlotId
                          (existsb holds_row_lock (before ++ after)) d t with
          | Some (d', t') => Some (d', before ++ t' :: after)
          | None => None
          end
      | S i' => step_at tz doctorSlotId i' d (before ++ [t]) after
      end
  end.

(** Runs the requests in the order a schedule names them. *)
Fixpoint run_schedule (tz : time_zone) (doctorSlotId : Z)
    (schedule : list nat) (w : world) : option world :=
  match schedule with
  | [] => Some w
  | i :: schedule' =>
      match step_at tz doctorSlotId i (fst w) [] (snd w) with
      | Some w' => run_schedule tz doctorSlotId schedule' w'
      | None => None
      end
  end.



(** The requests of [callers] (patient id, clock), all before their
    [SELECT]. *)
Definition arriving (callers : list (Z * DATETIME)) : list task :=
  map (fun c => mk_task (fst c) (snd c) AtSelect) callers.


(** One request alone: its steps, one after the other, nobody holding the
    row lock. *)
Fixpoint run_alone (tz : time_zone) (fuel : nat) (doctorSlotId : Z) (d : db)
    (t : task) : db * task :=
  match fuel with
  | O => (d, t)
  | S fuel' =>
      match task_step tz doctorSlotId false d t with
      | Some (d', t') => run_alone tz fuel' doctorSlotId d' t'
      | None => (d, t)
      end
  end.

(** *** What holds of every world of a race for a free slot

    [d0] is the store the race started from, [slot] the free row the
    requests are after. *)

Definition holders (ts : list task) : nat :=
  List.length (filter holds_row_lock ts).





(** ** Stores and requests to try the routes on *)

(** A doctor (10), three patients; slot 1 free, slot 2 booked by patient 22
    through appointment 1. *)
Definition example_db : db :=
  mk_db [mk_user 10 "doctor"; mk_user 20 "patient"; mk_user 21 "patient";
         mk_user 22 "patient"]
        [mk_slot 1 10 "2025-03-01 10:00:00" false;
         mk_slot 2 10 "2025-03-01 11:00:00" true]
        [mk_appt 1 22 10 "2025-03-01 11:00:00" "booked" "2025-02-01 09:00:00"]
        3 2.

(** Data drift: slot 1 is free although an appointment holds its
    [(doctor_id, scheduled_time)]. *)
Definition drifted_db : db :=
  mk_db [mk_user 10 "doctor"; mk_user 20 "patient"; mk_user 22 "patient"]
        [mk_slot 1 10 "2025-03-01 10:00:00" false]
        [mk_appt 1 22 10 "2025-03-01 10:00:00" "booked" "2025-02-01 09:00:00"]
        2 2.

(** An appointment whose slot row is gone. *)
Definition orphan_db : db :=
  mk_db [mk_user 10 "doctor"; mk_user 22 "patient"]
        [mk_slot 1 10 "2025-03-01 10:00:00" false]
        [mk_appt 1 22 10 "2025-03-05 09:00:00" "booked" "2025-02-01 09:00:00"]
        2 2.

Definition free_slot_1 : doctor_slot :=
  mk_slot 1 10 "2025-03-01 10:00:00" false.

Definition example_requests : list request :=
  [ReqBook (mk_jwt 20 "patient") 1 "2025-02-20 08:00:00";
   ReqBook (mk_jwt 21 "patient") 1 "2025-02-20 08:00:01";
   ReqCancel (mk_jwt 21 "patient") 2;
   ReqCancel (mk_jwt 10 "doctor") 2;
   ReqBook (mk_jwt 21 "patient") 1 "2025-02-20 08:05:00";
   ReqCancel (mk_jwt 22 "patient") 1].

Definition example_callers : list (Z * DATETIME) :=
  [(20, "2025-02-20 08:00:00"); (21, "2025-02-20 08:00:00");
   (22, "2025-02-20 08:00:01")].

(** New York time, on the times of 2025: the hour from 02:00:00 to 02:59:59
    of 9 March is skipped there; a [Date] made of a time in it shows, and
    is written back as, the time one hour later. *)
Definition new_york_2025 : time_zone :=
  fun t =>
    if String.prefix "2025-03-09 02:" t
    then Some ("2025-03-09 03:" ++ String.substring 14 5 t)%string
    else Some t.

(** A doctor (10) and two patients; the doctor has published one slot, at
    02:30 on 9 March 2025, and it is free. *)
Definition gap_db : db :=
  mk_db [mk_user 10 "doctor"; mk_user 20 "patient"; mk_user 21 "patient"]
        [mk_slot 1 10 "2025-03-09 02:30:00" false]
        []
        2 1.

(** ** Statements of the specification that the routes do not meet *)

(** "If the appointment insert fails, the operation fails with Conflict":
    a free slot was found, the conditional update went through, and the
    insert of the transaction gave an error. *)
Definition insert_failure_answers_conflict (tz : time_zone) : Prop :=
  forall (u : jwt_user) (doctorSlotId : Z) (now : DATETIME) (d : db)
         (slot : doctor_slot) (e : sql_error),
    jwt_role u = "patient" -> doctorSlotId <> 0 ->
    select_slot_join_doctor doctorSlotId d = Some slot ->
    ds_is_booked slot = false ->
    fst (insert_appointment (jwt_id u) (ds_doctor_user_id slot)
                            (tz (ds_slot_at slot)) "booked" now
                            (snd (update_slot_set_booked doctorSlotId d)))
    = SqlError e ->
    res_status (fst (post_appointments tz u doctorSlotId now d)) = 409.


(** ** The other routes over the booking tables *)

(** What a listing route sends: the rows of its query (status 200), or a
    refusal.  The rows are given as the query returns them; [res.json]
    prints a [DATETIME] of a row as the [Date] read from it. *)
Inductive reply (A : Type) :=
| Rows (rows : list A)
| Refused (r : response).
Arguments Rows {A} rows.
Arguments Refused {A} r.

(** *** GET /doctor/slots (server.js, 449-461) *)

(** [SELECT id AS slot_id, slot_at, is_booked FROM doctor_slots
     WHERE doctor_user_id = ? ORDER BY slot_at ASC] *)
Definition select_doctor_slots (doctorId : Z) (d : db)
  : list (Z * DATETIME * bool) :=
  map (fun ds => (ds_id ds, ds_slot_at ds, ds_is_booked ds))
      (order_by_slot_at
         (filter (fun ds => ds_doctor_user_id ds =? doctorId)
                 (doctor_slots d))).

Definition get_doctor_slots (u : jwt_user) (d : db)
  : reply (Z * DATETIME * bool) :=
  if authorizeRoles ["doctor"] u
  then Rows (select_doctor_slots (jwt_id u) d)
  else Refused access_denied.

(** *** GET /appointments and GET /appointments/me (server.js, 346-386)

    The rows are given by their [appointments] columns; the names and the
    phone number the two joins add to each row are columns of [users] that
    this model does not hold. *)

Fixpoint insert_by_scheduled_at_desc (a : appointment) (l : list appointment)
  : list appointment :=
  match l with
  | [] => [a]
  | x :: l' => if String.leb (a_scheduled_at x) (a_scheduled_at a)
               then a :: l else x :: insert_by_scheduled_at_desc a l'
  end.

(** [ORDER BY a.scheduled_at DESC] *)
Definition order_by_scheduled_at_desc (l : list appointment)
  : list appointment :=
  fold_right insert_by_scheduled_at_desc [] l.

(** [JOIN users pu ON pu.id = a.patient_user_id
     JOIN users du ON du.id = a.doctor_user_id]: the row has both. *)
Definition joins_users (d : db) (a : appointment) : bool :=
  is_user (a_patient_user_id a) d && is_user (a_doctor_user_id a) d.

(** [... WHERE a.doctor_user_id = ? ORDER BY a.scheduled_at DESC] *)
Definition select_appointments_of_doctor (doctorId : Z) (d : db)
  : list appointment :=
  order_by_scheduled_at_desc
    (filter (fun a => joins_users d a && (a_doctor_user_id a =? doctorId))
            (appointments d)).

(** [... WHERE a.patient_user_id = ? ORDER BY a.scheduled_at DESC] *)
Definition select_appointments_of_patient (patientId : Z) (d : db)
  : list appointment :=
  order_by_scheduled_at_desc
    (filter (fun a => joins_users d a && (a_patient_user_id a =? patientId))
            (appointments d)).

Definition get_appointments (u : jwt_user) (d : db) : reply appointment :=
  if authorizeRoles ["doctor"] u
  then Rows (select_appointments_of_doctor (jwt_id u) d)
  else Refused access_denied.

Definition get_appointments_me (u : jwt_user) (d : db) : reply appointment :=
  if authorizeRoles ["patient"] u
  then Rows (select_appointments_of_patient (jwt_id u) d)
  else Refused access_denied.

(** *** authenticateToken (server.js, 197-207) *)

(** [s.split(" ")] *)
Fixpoint split_space (s : string) : list string :=
  match s with
  | EmptyString => [EmptyString]
  | String c s' =>
      if Ascii.eqb c " "
      then EmptyString :: split_space s'
      else match split_space s' with
           | w :: ws => String c w :: ws
           | [] => [String c EmptyString]
           end
  end.

(** The middleware, for the [authorization] header (absent: [None]);
    [verify] is [jwt.verify] with the server's secret, giving the payload of
    a token it accepts.  [inr] is [next()], with [req.user] set. *)
Definition authenticateToken (verify : string -> option jwt_user)
    (authorization : option string) : response + jwt_user :=
  let token :=
    match authorization with
    | None => None
    | Some authHeader =>
        if (authHeader =? "")%string then None
        else nth_error (split_space authHeader) 1
    end in
  match token with
  | None => inl (res 401 (Message "No token provided"))
  | Some token =>
      if (token =? "")%string
      then inl (res 401 (Message "No token provided"))
      else
        match verify token with
        | None => inl (res 403 (Message "Invalid token"))
        | Some payload => inr payload
        end
  end.

(** *** The four routes that write the booking tables *)

Inductive booking_request :=
| Publish (u : jwt_user) (slots : list string)
| DeleteSlot (u : jwt_user) (slotId : Z)
| Book (u : jwt_user) (doctorSlotId : Z) (now : DATETIME)
| Cancel (u : jwt_user) (apptId : Z).

Definition serve (tz : time_zone) (cast : datetime_cast)
    (r : booking_request) (d : db) : response * db :=
  match r with
  | Publish u slots => post_doctor_slots cast u slots d
  | DeleteSlot u slotId => delete_doctor_slots_id u slotId d
  | Book u doctorSlotId now => post_appointments tz u doctorSlotId now d
  | Cancel u apptId => cancel_appointment tz u apptId d
  end.

(** The store after all the requests of [rs], in order. *)
Definition serve_all (tz : time_zone) (cast : datetime_cast)
    (rs : list booking_request) (d : db) : db :=
  fold_left (fun d r => snd (serve tz cast r d)) rs d.

Definition caller (r : booking_request) : jwt_user :=
  match r with
  | Publish u _ | DeleteSlot u _ | Book u _ _ | Cancel u _ => u
  end.

Definition is_booking (r : booking_request) : Prop :=
  match r with
  | Book _ _ _ => True
  | _ => False
  end.


(** The token tells the role its [users] row has: [POST /login] signs the
    role it reads from the row, and no route changes a row's role. *)
Definition genuine (d : db) (u : jwt_user) : Prop :=
  forall x, In x (users d) -> u_id x = jwt_id u -> u_role x = jwt_role u.

(** The tables before any request. *)
Definition empty_tables (accounts : list user) : db :=
  mk_db accounts [] [] 1 1.




(** What names a slot row, whatever its booked flag. *)
Definition slot_ident (ds : doctor_slot) : Z * Z * DATETIME :=
  (ds_id ds, ds_doctor_user_id ds, ds_slot_at ds).

(** No space in [s]. *)
Fixpoint no_space (s : string) : bool :=
  match s with
  | EmptyString => true
  | String c s' => negb (Ascii.eqb c " ") && no_space s'
  end.

(** The rows a slot listing gives, in the order of their [slot_at]. *)
Definition slot_row (ds : doctor_slot) : Z * DATETIME * bool :=
  (ds_id ds, ds_slot_at ds, ds_is_booked ds).

Definition slot_row_leb (r1 r2 : Z * DATETIME * bool) : Prop :=
  String.leb (snd (fst r1)) (snd (fst r2)) = true.

Definition scheduled_at_geb (a1 a2 : appointment) : Prop :=
  String.leb (a_scheduled_at a2) (a_scheduled_at a1) = true.

(** ** POST /login (server.js, 165-194) *)

(** The columns of [users] the login reads, [password] being the stored
    hash. *)
Record account := mk_account {
  acc_id : Z;
  acc_phone_number : string;
  acc_password : string;
  acc_role : string
}.

(** What the login signs: [{ id, phone_number, role }]. *)
Record token_payload := mk_payload {
  p_id : Z;
  p_phone_number : string;
  p_role : string
}.

Definition payload_of (a : account) : token_payload :=
  mk_payload (acc_id a) (acc_phone_number a) (acc_role a).

(** What the routes read of a verified payload: [req.user.id] and
    [req.user.role]. *)
Definition req_user (p : token_payload) : jwt_user :=
  mk_jwt (p_id p) (p_role p).

(** The row of [users] as the booking tables see it. *)
Definition as_user (a : account) : user :=
  mk_user (acc_id a) (acc_role a).

Section Login.

(** [=] on [users.phone_number], under the column's collation
    ([utf8mb4_0900_ai_ci]). *)
Variable collate_eq : string -> string -> bool.
(** [bcrypt.compare (password, hash)]. *)
Variable compare : string -> string -> bool.
(** [jwt.sign (payload, JWT_SECRET, { expiresIn: "1h" })]. *)
Variable sign : token_payload -> string.

(** [SELECT id, phone_number, password, role, name FROM users
     WHERE phone_number = ? LIMIT 1] *)
Definition select_user_by_phone_number (phone_number : string)
    (accounts : list account) : option account :=
  find (fun a => collate_eq (acc_phone_number a) phone_number) accounts.

(** The handler of the route, reached once the rate limiter [authLimiter]
    lets the request through, for string fields of the body ([None]: the
    field is missing); [inr] is the token of [res.json({ token })]. *)
Definition login (phone_number password : option string)
    (accounts : list account) : response + string :=
  match phone_number, password with
  | Some phone_number, Some password =>
      if (phone_number =? "")%string || (password =? "")%string
      then inl (res 400 (Message "phone_number and password required"))
      else
        match select_user_by_phone_number phone_number accounts with
        | None => inl (res 400 (Message "Invalid phone number or password"))
        | Some user =>
            if compare password (acc_password user)
            then inr (sign (payload_of user))
            else inl (res 400 (Message "Invalid phone number or password"))
        end
  | _, _ => inl (res 400 (Message "phone_number and password required"))
  end.

End Login.

(** ** PUT /lab-tests/:id/complete (server.js, 576-587) *)

(** [lab_tests (id, patient_user_id, test_name, test_date, status,
    report_url)] *)
Record lab_test := mk_lab_test {
  lt_id : Z;
  lt_patient_user_id : Z;
  lt_test_name : string;
  lt_test_date : string;
  lt_status : string;
  lt_report_url : option string
}.

Definition set_status (status : string) (t : lab_test) : lab_test :=
  mk_lab_test (lt_id t) (lt_patient_user_id t) (lt_test_name t)
              (lt_test_date t) status (lt_report_url t).

(** [WHERE id = ? AND patient_user_id = ?] *)
Definition lab_test_of (id patientId : Z) (t : lab_test) : bool :=
  (lt_id t =? id) && (lt_patient_user_id t =? patientId).

(** [UPDATE lab_tests SET status = 'completed'
     WHERE id = ? AND patient_user_id = ?]: the number of rows matched and
    the table afterwards. *)
Definition update_lab_test_completed (id patientId : Z)
    (lab_tests : list lab_test) : nat * list lab_test :=
  (List.length (filter (lab_test_of id patientId) lab_tests),
   map (fun t => if lab_test_of id patientId t
                 then set_status "completed" t else t) lab_tests).

(** The route, for a numeric [:id]. *)
Definition complete_lab_test (u : jwt_user) (id : Z)
    (lab_tests : list lab_test) : response * list lab_test :=
  if negb (authorizeRoles ["patient"] u) then (access_denied, lab_tests)
  else
    let (affectedRows, lab_tests') :=
      update_lab_test_completed id (jwt_id u) lab_tests in
    if (affectedRows =? 0)%nat
    then (res 404 (Message "Lab test not found or not authorized"),
          lab_tests)
    else (res 200 (Message "Lab test marked completed"), lab_tests').

(** ** DELETE /calendar/events/:id (server.js, 699-713) *)

(** [calendar_events (id, user_id, event_type, related_type, related_id,
    title, description, start_time, end_time, color)] *)
Record calendar_event := mk_event {
  ev_id : Z;
  ev_user_id : Z;
  ev_event_type : string;
  ev_related_type : option string;
  ev_related_id : option Z;
  ev_title : string;
  ev_description : option string;
  ev_start_time : DATETIME;
  ev_end_time : option DATETIME;
  ev_color : option string
}.

(** [SELECT user_id FROM calendar_events WHERE id = ? LIMIT 1] *)
Definition select_event_owner (id : Z) (calendar_events : list calendar_event)
  : option Z :=
  option_map ev_user_id (find (fun e => ev_id e =? id) calendar_events).

(** [DELETE FROM calendar_events WHERE id = ?] *)
Definition delete_calendar_event (id : Z)
    (calendar_events : list calendar_event) : list calendar_event :=
  filter (fun e => negb (ev_id e =? id)) calendar_events.

(** The route, for a numeric [:id]; any authenticated caller may call it. *)
Definition delete_event (u : jwt_user) (id : Z)
    (calendar_events : list calendar_event)
  : response * list calendar_event :=
  match select_event_owner id calendar_events with
  | None => (res 404 (Message "Event not found"), calendar_events)
  | Some user_id =>
      if negb (user_id =? jwt_id u)
      then (res 403 (Message "Not authorized to delete this event"),
            calendar_events)
      else (res 200 (Message "Event deleted"),
            delete_calendar_event id calendar_events)
  end.

(** ** More example data *)


Definition patient_traffic : list booking_request :=
  [Book (mk_jwt 20 "patient") 1 "2025-02-10 08:00:00";
   Publish (mk_jwt 21 "patient") ["2025-03-02 09:00:00"];
   Cancel (mk_jwt 22 "patient") 1;
   DeleteSlot (mk_jwt 20 "patient") 2].

Definition doctor_traffic : list booking_request :=
  [Book (mk_jwt 10 "doctor") 1 "2025-02-10 08:00:00";
   Publish (mk_jwt 10 "doctor") ["2025-03-02 09:00:00"];
   Cancel (mk_jwt 10 "doctor") 1].

Definition example_accounts : list account :=
  [mk_account 10 "5550010" "hash:secret10" "doctor";
   mk_account 20 "5550020" "hash:secret20" "patient"].

(** Stand-ins for the hashing and the token library, for the examples. *)
Definition example_compare (password hash : string) : bool :=
  (hash =? "hash:" ++ password)%string.

Definition example_sign (p : token_payload) : string :=
  ("jwt." ++ p_phone_number p)%string.

Definition example_verify (token : string) : option token_payload :=
  option_map payload_of
    (find (fun a => (example_sign (payload_of a) =? token)%string)
          example_accounts).

Definition example_lab_tests : list lab_test :=
  [mk_lab_test 1 20 "blood count" "2025-03-03" "pending" None;
   mk_lab_test 2 21 "x-ray" "2025-03-04" "pending" None].

Definition example_events : list calendar_event :=
  [mk_event 1 20 "note" None None "call the lab" None
            "2025-03-03 09:00:00" None None;
   mk_event 2 10 "note" None None "ward round" None
            "2025-03-03 08:00:00" None None].

(** * Proofs *)

(** ** Lists *)

Section ListFacts.
Context {A B : Type}.

Lemma find_map_stable (f : A -> bool) (g : A -> A) (l : list A) :
  (forall x, f (g x) = f x) ->
  find f (map g l) = option_map g (find f l).
Proof.
  intros Hfg. induction l as [|x l IH]; simpl; [reflexivity|].
  rewrite Hfg. destruct (f x); [reflexivity|exact IH].
Qed.

Lemma find_unique (key : A -> B) (f : A -> bool) (l : list A) (x : A) :
  NoDup (map key l) -> In x l -> f x = true ->
  (forall y, In y l -> f y = true -> key y = key x) ->
  find f l = Some x.
Proof.
  induction l as [|y l IH]; simpl; intros Hnd Hin Hfx Hkey; [contradiction|].
  inversion Hnd as [|? ? Hnotin Hnd']; subst.
  destruct (f y) eqn:Hfy.
  - destruct Hin as [->|Hin]; [reflexivity|].
    exfalso. apply Hnotin.
    rewrite (Hkey y (or_introl eq_refl) Hfy).
    now apply in_map.
  - destruct Hin as [->|Hin]; [congruence|].
    apply IH; auto.
Qed.

Lemma find_none_iff (f : A -> bool) (l : list A) :
  find f l = None <-> forall x, In x l -> f x = false.
Proof.
  split; [apply find_none|].
  induction l as [|y l IH]; simpl; intros H; [reflexivity|].
  rewrite (H y (or_introl eq_refl)). apply IH. intros; apply H; now right.
Qed.

Lemma existsb_false_iff (f : A -> bool) (l : list A) :
  existsb f l = false <-> forall x, In x l -> f x = false.
Proof.
  split.
  - intros H x Hin. destruct (f x) eqn:Hfx; [|reflexivity].
    rewrite <- H. symmetry. apply existsb_exists. now exists x.
  - intros H. destruct (existsb f l) eqn:He; [|reflexivity].
    apply existsb_exists in He as (x & Hin & Hfx).
    rewrite (H x Hin) in Hfx; discriminate.
Qed.

Lemma filter_nil_iff (f : A -> bool) (l : list A) :
  filter f l = [] <-> forall x, In x l -> f x = false.
Proof.
  induction l as [|y l IH]; simpl.
  - split; [intros _ x []|reflexivity].
  - destruct (f y) eqn:Hfy; split.
    + discriminate.
    + intros H. rewrite (H y (or_introl eq_refl)) in Hfy; discriminate.
    + intros H x [->|Hin]; [exact Hfy|now apply IH].
    + intros H. apply IH. intros; apply H; now right.
Qed.

Lemma filter_all (f : A -> bool) (l : list A) :
  (forall x, In x l -> f x = true) -> filter f l = l.
Proof.
  induction l as [|y l IH]; simpl; intros H; [reflexivity|].
  rewrite (H y (or_introl eq_refl)). f_equal. apply IH. intros; apply H; now right.
Qed.

Lemma map_id_on (g : A -> A) (l : list A) :
  (forall x, In x l -> g x = x) -> map g l = l.
Proof.
  induction l as [|y l IH]; simpl; intros H; [reflexivity|].
  rewrite (H y (or_introl eq_refl)). f_equal. apply IH. intros; apply H; now right.
Qed.

(** Under a key without duplicates, at most one row passes a filter that
    fixes the key. *)
Lemma filter_key_le_1 (key : A -> B) (k : B) (f : A -> bool) (l : list A) :
  NoDup (map key l) ->
  (forall x, f x = true -> key x = k) ->
  (List.length (filter f l) <= 1)%nat.
Proof.
  intros Hnd Hk. induction l as [|y l IH]; simpl; [lia|].
  inversion Hnd as [|? ? Hnotin Hnd']; subst.
  destruct (f y) eqn:Hfy; [|now apply IH].
  assert (Hnil : filter f l = []).
  { apply filter_nil_iff. intros x Hin.
    destruct (f x) eqn:Hfx; [|reflexivity].
    exfalso. apply Hnotin. rewrite (Hk y Hfy), <- (Hk x Hfx).
    now apply in_map. }
  rewrite Hnil. simpl. lia.
Qed.

Lemma nodupb_sound (eqb : A -> A -> bool) (l : list A) :
  (forall x y, eqb x y = true <-> x = y) ->
  nodupb eqb l = true -> NoDup l.
Proof.
  intros Heq. induction l as [|x l IH]; simpl; intros H; [constructor|].
  apply andb_true_iff in H as [Hx Hl]. constructor; [|now apply IH].
  intros Hin. apply negb_true_iff in Hx.
  rewrite existsb_false_iff in Hx. specialize (Hx x Hin).
  assert (eqb x x = true) by now apply Heq. congruence.
Qed.
End ListFacts.

(** ** The computed checks are sound *)

Lemma key_eqb_eq (k1 k2 : Z * DATETIME) : key_eqb k1 k2 = true <-> k1 = k2.
Proof.
  destruct k1 as [z1 s1], k2 as [z2 s2]. unfold key_eqb; simpl.
  rewrite andb_true_iff, Z.eqb_eq, String.eqb_eq.
  split; [intros [-> ->]; reflexivity|intros [= -> ->]; auto].
Qed.

Lemma store_okb_sound (d : db) : store_okb d = true -> store_ok d.
Proof.
  unfold store_okb. rewrite !andb_true_iff, !forallb_forall.
  intros [[[[[H1 H2] H3] H5] H6] H7].
  constructor.
  - apply (nodupb_sound Z.eqb); [apply Z.eqb_eq|exact H1].
  - apply (nodupb_sound key_eqb); [apply key_eqb_eq|exact H2].
  - intros ds Hin. apply Z.ltb_lt. now apply H3.
  - apply (nodupb_sound Z.eqb); [apply Z.eqb_eq|exact H5].
  - apply (nodupb_sound key_eqb); [apply key_eqb_eq|exact H6].
  - intros a Hin. apply Z.ltb_lt. now apply H7.
Qed.

Lemma slots_of_doctorsb_sound (d : db) :
  slots_of_doctorsb d = true -> slots_of_doctors d.
Proof.
  unfold slots_of_doctorsb. rewrite forallb_forall. intros H ds Hin. auto.
Qed.

Lemma booking_invariantb_sound (d : db) :
  booking_invariantb d = true -> booking_invariant d.
Proof.
  unfold booking_invariantb. rewrite forallb_forall.
  intros H ds Hin. specialize (H ds Hin). unfold slot_consistent.
  apply Bool.eqb_prop in H. rewrite H. apply Nat.eqb_eq.
Qed.

(** ** The statements, one by one *)

Lemma appt_at_key (doctorId : Z) (at_ : DATETIME) (a : appointment) :
  appt_at doctorId at_ a = true <-> appt_key a = (doctorId, at_).
Proof.
  unfold appt_at, appt_key. rewrite andb_true_iff, Z.eqb_eq, String.eqb_eq.
  split; [intros [-> ->]; reflexivity|intros [= -> ->]; auto].
Qed.

Lemma slot_at_key (doctorId : Z) (at_ : DATETIME) (ds : doctor_slot) :
  slot_at doctorId at_ ds = true <-> slot_key ds = (doctorId, at_).
Proof.
  unfold slot_at, slot_key. rewrite andb_true_iff, Z.eqb_eq, String.eqb_eq.
  split; [intros [-> ->]; reflexivity|intros [= -> ->]; auto].
Qed.

Lemma is_doctor_user_is_user (uid : Z) (d : db) :
  is_doctor_user uid d = true -> is_user uid d = true.
Proof.
  unfold is_doctor_user, is_user. rewrite !existsb_exists.
  intros (u & Hin & H). apply andb_true_iff in H as [H _]. now exists u.
Qed.

(** The join finds the row of that id, and only a row of that id. *)
Lemma select_slot_join_doctor_some (doctorSlotId : Z) (d : db) (slot : doctor_slot) :
  select_slot_join_doctor doctorSlotId d = Some slot ->
  In slot (doctor_slots d) /\ ds_id slot = doctorSlotId
  /\ is_doctor_user (ds_doctor_user_id slot) d = true.
Proof.
  unfold select_slot_join_doctor. intros H.
  apply find_some in H as [Hin H].
  apply andb_true_iff in H as [Hid Hdoc]. apply Z.eqb_eq in Hid. auto.
Qed.

Lemma select_slot_join_doctor_in (doctorSlotId : Z) (d : db) (slot : doctor_slot) :
  store_ok d -> slots_of_doctors d ->
  In slot (doctor_slots d) -> ds_id slot = doctorSlotId ->
  select_slot_join_doctor doctorSlotId d = Some slot.
Proof.
  intros Hok Hown Hin Hid. unfold select_slot_join_doctor.
  apply (find_unique ds_id); auto.
  - apply (slots_pk d Hok).
  - rewrite Hid, Z.eqb_refl. simpl. now apply Hown.
  - intros y _ Hy. apply andb_true_iff in Hy as [Hy _].
    apply Z.eqb_eq in Hy. congruence.
Qed.

Lemma select_slot_join_doctor_none (doctorSlotId : Z) (d : db) :
  (forall ds, In ds (doctor_slots d) -> ds_id ds <> doctorSlotId) ->
  select_slot_join_doctor doctorSlotId d = None.
Proof.
  intros H. unfold select_slot_join_doctor. apply find_none_iff.
  intros ds Hin. apply andb_false_iff. left. apply Z.eqb_neq. now apply H.
Qed.

(** The conditional update reports a row as soon as one free row has the id. *)
Lemma update_slot_set_booked_affected (doctorSlotId : Z) (d : db) (slot : doctor_slot) :
  In slot (doctor_slots d) -> ds_id slot = doctorSlotId ->
  ds_is_booked slot = false ->
  0 < fst (update_slot_set_booked doctorSlotId d).
Proof.
  intros Hin Hid Hfree. unfold update_slot_set_booked; simpl.
  assert (In slot (filter (free_with_id doctorSlotId) (doctor_slots d))) as H.
  { apply filter_In. split; [exact Hin|].
    unfold free_with_id. rewrite Hid, Z.eqb_refl, Hfree. reflexivity. }
  destruct (filter (free_with_id doctorSlotId) (doctor_slots d)); [contradiction|].
  simpl. lia.
Qed.


Lemma insert_appointment_ok (patientId doctorId : Z) (scheduledAt : DATETIME)
    (status : string) (now : DATETIME) (d : db) :
  existsb (appt_at doctorId scheduledAt) (appointments d) = false ->
  is_user patientId d = true -> is_user doctorId d = true ->
  insert_appointment patientId doctorId (Some scheduledAt) status now d =
  (Ok (appointments_auto_increment d),
   mk_db (users d) (doctor_slots d)
         (appointments d
            ++ [mk_appt (appointments_auto_increment d) patientId doctorId
                        scheduledAt status now])
         (doctor_slots_auto_increment d) (appointments_auto_increment d + 1)).
Proof.
  intros H1 H2 H3. unfold insert_appointment.
  rewrite H1, H2, H3. reflexivity.
Qed.

(** A failed insert leaves the tables alone. *)
Lemma insert_appointment_error (patientId doctorId : Z) (scheduledAt : Date)
    (status : string) (now : DATETIME) (d : db) (e : sql_error) :
  fst (insert_appointment patientId doctorId scheduledAt status now d)
  = SqlError e ->
  exists d',
    insert_appointment patientId doctorId scheduledAt status now d
    = (SqlError e, d')
    /\ same_tables d d'.
Proof.
  unfold insert_appointment, same_tables.
  destruct scheduledAt as [scheduled_at|]; simpl.
  - destruct (existsb _ _); simpl;
      [intros [= <-]; eexists; split; [reflexivity|]; simpl;
       repeat split; lia|].
    destruct (negb _); simpl;
      [intros [= <-]; eexists; split; [reflexivity|]; simpl;
       repeat split; lia|discriminate].
  - intros [= <-]. exists d. repeat split; lia.
Qed.

(** An insert that went through was given a time, and added one row. *)
Lemma insert_appointment_inserted (patientId doctorId : Z) (scheduledAt : Date)
    (status : string) (now : DATETIME) (d : db) (insertId : Z) (d' : db) :
  insert_appointment patientId doctorId scheduledAt status now d
  = (Ok insertId, d') ->
  exists scheduled_at,
    scheduledAt = Some scheduled_at
    /\ existsb (appt_at doctorId scheduled_at) (appointments d) = false
    /\ is_user patientId d = true /\ is_user doctorId d = true
    /\ insertId = appointments_auto_increment d
    /\ d' = mk_db (users d) (doctor_slots d)
               (appointments d
                  ++ [mk_appt insertId patientId doctorId scheduled_at status
                              now])
               (doctor_slots_auto_increment d)
               (appointments_auto_increment d + 1).
Proof.
  unfold insert_appointment.
  destruct scheduledAt as [scheduled_at|]; [|intros H; discriminate H].
  destruct (existsb _ _) eqn:Hdup; [intros H; discriminate H|].
  destruct (negb _) eqn:Hfk; [intros H; discriminate H|].
  apply negb_false_iff, andb_true_iff in Hfk as [Hp Hd].
  intros [= <- <-]. exists scheduled_at. repeat split; auto.
Qed.

(** Under the invariant a free slot has no appointment under its key. *)
Lemma free_slot_no_appointment (d : db) (slot : doctor_slot) :
  store_ok d -> booking_invariant d ->
  In slot (doctor_slots d) -> ds_is_booked slot = false ->
  existsb (appt_at (ds_doctor_user_id slot) (ds_slot_at slot)) (appointments d)
  = false.
Proof.
  intros Hok Hinv Hin Hfree.
  apply existsb_false_iff. apply filter_nil_iff.
  pose proof (Hinv slot Hin) as Hc. unfold slot_consistent, appointments_at in Hc.
  pose proof (filter_key_le_1 appt_key
                (ds_doctor_user_id slot, ds_slot_at slot)
                (appt_at (ds_doctor_user_id slot) (ds_slot_at slot))
                (appointments d) (appts_ux d Hok)) as Hle.
  destruct (filter _ (appointments d)) as [|a [|b l]] eqn:E; [reflexivity| |].
  - simpl in Hc. rewrite (proj2 Hc eq_refl) in Hfree. discriminate.
  - simpl in Hle. exfalso.
    assert (S (S (List.length l)) <= 1)%nat; [|lia].
    apply Hle. intros x Hx. now apply appt_at_key.
Qed.

(** ** POST /appointments, sequentially *)

Lemma authorizeRoles_one (role : string) (u : jwt_user) :
  jwt_role u = role -> authorizeRoles [role] u = true.
Proof.
  intros <-. unfold authorizeRoles; simpl. now rewrite String.eqb_refl.
Qed.


Lemma set_is_booked_same (ds : doctor_slot) :
  set_is_booked (ds_is_booked ds) ds = ds.
Proof. destruct ds; reflexivity. Qed.

(** The conditional update, row by row: every row of that id ends booked. *)
Lemma claim_rows_by_id (doctorSlotId : Z) (l : list doctor_slot) :
  map (fun ds => if free_with_id doctorSlotId ds
                 then set_is_booked true ds else ds) l
  = map (fun ds => if ds_id ds =? doctorSlotId
                   then set_is_booked true ds else ds) l.
Proof.
  apply map_ext. intros ds. unfold free_with_id.
  destruct (ds_id ds =? doctorSlotId); simpl; [|reflexivity].
  destruct (ds_is_booked ds) eqn:E; simpl; [|reflexivity].
  rewrite <- E. symmetry. apply set_is_booked_same.
Qed.

(** The handler on a free slot, with nothing under the key of the time
    written back for it. *)
Lemma book_appointment_created (tz : time_zone) (patientId doctorSlotId : Z)
    (now : DATETIME) (d : db) (slot : doctor_slot) (scheduledAt : DATETIME) :
  doctorSlotId <> 0 ->
  select_slot_join_doctor doctorSlotId d = Some slot ->
  ds_is_booked slot = false ->
  tz (ds_slot_at slot) = Some scheduledAt ->
  existsb (appt_at (ds_doctor_user_id slot) scheduledAt) (appointments d)
  = false ->
  is_user patientId d = true ->
  book_appointment tz patientId doctorSlotId now d =
  (res 201 (Booking (appointments_auto_increment d) patientId
                    (ds_doctor_user_id slot) (Some scheduledAt) doctorSlotId),
   mk_db (users d)
         (map (fun ds => if ds_id ds =? doctorSlotId
                         then set_is_booked true ds else ds) (doctor_slots d))
         (appointments d
            ++ [mk_appt (appointments_auto_increment d) patientId
                        (ds_doctor_user_id slot) scheduledAt
                        "booked" now])
         (doctor_slots_auto_increment d) (appointments_auto_increment d + 1)).
Proof.
  intros Hid Hsel Hfree Htz Hnone Huser.
  destruct (select_slot_join_doctor_some _ _ _ Hsel) as (Hin & Hsid & Hdoc).
  pose proof (update_slot_set_booked_affected doctorSlotId d slot Hin Hsid Hfree)
    as Haff.
  unfold book_appointment.
  rewrite (proj2 (Z.eqb_neq _ _) Hid), Hsel, Hfree, Htz.
  destruct (update_slot_set_booked doctorSlotId d) as [affectedRows tx1] eqn:Hupd.
  simpl in Haff.
  rewrite (proj2 (Z.eqb_neq affectedRows 0)) by lia.
  unfold update_slot_set_booked in Hupd. injection Hupd as _ <-.
  rewrite insert_appointment_ok; simpl; auto.
  - now rewrite claim_rows_by_id.
  - now apply is_doctor_user_is_user.
Qed.

(** The join after the booking: same row, now booked. *)
Lemma select_after_booking (doctorSlotId : Z) (d d' : db) (slot : doctor_slot) :
  users d' = users d ->
  doctor_slots d' = map (fun ds => if ds_id ds =? doctorSlotId
                                   then set_is_booked true ds else ds)
                        (doctor_slots d) ->
  select_slot_join_doctor doctorSlotId d = Some slot ->
  select_slot_join_doctor doctorSlotId d' = Some (set_is_booked true slot).
Proof.
  intros Hu Hs Hsel.
  destruct (select_slot_join_doctor_some _ _ _ Hsel) as (_ & Hsid & _).
  unfold select_slot_join_doctor, is_doctor_user in *. rewrite Hs, Hu.
  rewrite find_map_stable.
  - rewrite Hsel. simpl. now rewrite Hsid, Z.eqb_refl.
  - intros x. destruct (ds_id x =? doctorSlotId) eqn:E; simpl; rewrite ?E; reflexivity.
Qed.

Lemma nodup_key_inj {A B : Type} (key : A -> B) (l : list A) (x y : A) :
  NoDup (map key l) -> In x l -> In y l -> key x = key y -> x = y.
Proof.
  induction l as [|z l IH]; simpl; intros Hnd Hx Hy Hk; [contradiction|].
  inversion Hnd as [|? ? Hnotin Hnd']; subst.
  destruct Hx as [->|Hx], Hy as [->|Hy]; auto.
  - exfalso. apply Hnotin. rewrite Hk. now apply in_map.
  - exfalso. apply Hnotin. rewrite <- Hk. now apply in_map.
Qed.

(** The outcomes of [POST /appointments] by a patient with a slot id that
    is present, on a store that meets its schema: 404 when no slot has the
    id; 409 with the store as it was when the slot of that id is booked; and
    for a free slot, when nothing is under the key of the time written back
    for the slot's, 201 with a new appointment of a fresh id at that time,
    the slot being booked afterwards. *)
Lemma post_appointments_outcomes (tz : time_zone) (u : jwt_user)
    (doctorSlotId : Z) (now : DATETIME) (d : db) :
  store_ok d -> slots_of_doctors d ->
  jwt_role u = "patient" -> is_user (jwt_id u) d = true ->
  doctorSlotId <> 0 ->
  ((forall ds, In ds (doctor_slots d) -> ds_id ds <> doctorSlotId) ->
   post_appointments tz u doctorSlotId now d
   = (res 404 (Message "Slot not found"), d))
  /\ (forall slot, In slot (doctor_slots d) -> ds_id slot = doctorSlotId ->
      ds_is_booked slot = true ->
      post_appointments tz u doctorSlotId now d
      = (res 409 (Message "Slot already booked"), d))
  /\ (forall slot scheduledAt,
      In slot (doctor_slots d) -> ds_id slot = doctorSlotId ->
      ds_is_booked slot = false ->
      tz (ds_slot_at slot) = Some scheduledAt ->
      existsb (appt_at (ds_doctor_user_id slot) scheduledAt) (appointments d)
      = false ->
      exists d',
        post_appointments tz u doctorSlotId now d
        = (res 201 (Booking (appointments_auto_increment d) (jwt_id u)
                            (ds_doctor_user_id slot) (Some scheduledAt)
                            doctorSlotId), d')
        /\ appointments d'
           = appointments d
               ++ [mk_appt (appointments_auto_increment d) (jwt_id u)
                           (ds_doctor_user_id slot) scheduledAt
                           "booked" now]
        /\ (forall a, In a (appointments d) ->
                      a_id a <> appointments_auto_increment d)
        /\ doctor_slots d'
           = map (fun ds => if ds_id ds =? doctorSlotId
                            then set_is_booked true ds else ds)
                 (doctor_slots d)
        /\ select_slot_join_doctor doctorSlotId d'
           = Some (set_is_booked true slot)).
Proof.
  intros Hok Hown Hrole Huser Hid.
  unfold post_appointments. rewrite (authorizeRoles_one "patient" u Hrole).
  repeat split.
  - intros Hnone. unfold book_appointment.
    rewrite (proj2 (Z.eqb_neq _ _) Hid).
    now rewrite select_slot_join_doctor_none.
  - intros slot Hin Hsid Hbooked. unfold book_appointment.
    rewrite (proj2 (Z.eqb_neq _ _) Hid).
    rewrite (select_slot_join_doctor_in _ _ slot Hok Hown Hin Hsid).
    now rewrite Hbooked.
  - intros slot scheduledAt Hin Hsid Hfree Htz Hnone.
    pose proof (select_slot_join_doctor_in _ _ slot Hok Hown Hin Hsid) as Hsel.
    eexists. split.
    + now apply (book_appointment_created tz _ _ _ _ slot scheduledAt).
    + simpl. repeat split.
      * intros a Ha. pose proof (appts_ai d Hok a Ha). lia.
      * now apply (select_after_booking doctorSlotId d).
Qed.

(** C4, as the route has it. When the insert of the booking transaction
    fails, for whatever reason (a duplicate key, a missing [users] row, a
    [Date] written [NULL]) and in whatever time zone, the handler rolls the
    transaction back, so the slot is free as before and no appointment was
    added, and answers 500 (Internal), "Failed to book slot". *)
Theorem insert_failure_rolls_back (tz : time_zone) (u : jwt_user)
    (doctorSlotId : Z) (now : DATETIME) (d : db) (slot : doctor_slot)
    (e : sql_error) :
  jwt_role u = "patient" -> doctorSlotId <> 0 ->
  select_slot_join_doctor doctorSlotId d = Some slot ->
  ds_is_booked slot = false ->
  fst (insert_appointment (jwt_id u) (ds_doctor_user_id slot)
                          (tz (ds_slot_at slot)) "booked" now
                          (snd (update_slot_set_booked doctorSlotId d)))
  = SqlError e ->
  exists d',
    post_appointments tz u doctorSlotId now d
    = (res 500 (Message "Failed to book slot"), d')
    /\ users d' = users d
    /\ doctor_slots d' = doctor_slots d
    /\ appointments d' = appointments d
    /\ select_slot_join_doctor doctorSlotId d' = Some slot.
Proof.
  intros Hrole Hid Hsel Hfree Hins.
  destruct (select_slot_join_doctor_some _ _ _ Hsel) as (Hin & Hsid & Hdoc).
  pose proof (update_slot_set_booked_affected doctorSlotId d slot Hin Hsid Hfree)
    as Haff.
  unfold post_appointments. rewrite (authorizeRoles_one "patient" u Hrole).
  unfold book_appointment.
  rewrite (proj2 (Z.eqb_neq _ _) Hid), Hsel, Hfree.
  destruct (update_slot_set_booked doctorSlotId d) as [affectedRows tx1] eqn:Hupd.
  simpl in Haff, Hins.
  rewrite (proj2 (Z.eqb_neq affectedRows 0)) by lia.
  destruct (insert_appointment_error _ _ _ _ _ _ e Hins) as (tx2 & -> & _).
  eexists. split; [reflexivity|]. simpl. repeat split.
  unfold select_slot_join_doctor, is_doctor_user in *. simpl. exact Hsel.
Qed.

(** ** The booking invariant across requests *)

Lemma same_tables_refl (d : db) : same_tables d d.
Proof. unfold same_tables. repeat split; lia. Qed.






(** Every answer of the booking handler either leaves the rows alone or is
    the booking of a free slot with nothing under the key of the time
    written back for it. *)
Lemma book_appointment_cases (tz : time_zone) (patientId doctorSlotId : Z)
    (now : DATETIME) (d : db) :
  same_tables d (snd (book_appointment tz patientId doctorSlotId now d))
  \/ exists slot scheduledAt,
       select_slot_join_doctor doctorSlotId d = Some slot
       /\ ds_is_booked slot = false
       /\ tz (ds_slot_at slot) = Some scheduledAt
       /\ existsb (appt_at (ds_doctor_user_id slot) scheduledAt)
                  (appointments d) = false
       /\ snd (book_appointment tz patientId doctorSlotId now d)
          = mk_db (users d)
              (map (fun ds => if ds_id ds =? doctorSlotId
                              then set_is_booked true ds else ds)
                   (doctor_slots d))
              (appointments d
                 ++ [mk_appt (appointments_auto_increment d) patientId
                             (ds_doctor_user_id slot) scheduledAt
                             "booked" now])
              (doctor_slots_auto_increment d)
              (appointments_auto_increment d + 1).
Proof.
  unfold book_appointment.
  destruct (doctorSlotId =? 0) eqn:Hz; [left; apply same_tables_refl|].
  destruct (select_slot_join_doctor doctorSlotId d) as [slot|] eqn:Hsel;
    [|left; apply same_tables_refl].
  destruct (ds_is_booked slot) eqn:Hfree; [left; apply same_tables_refl|].
  unfold update_slot_set_booked.
  destruct (Z.of_nat _ =? 0) eqn:Haff;
    [left; unfold same_tables; simpl; repeat split; lia|].
  destruct (tz (ds_slot_at slot)) as [scheduledAt|] eqn:Htz;
    [|left; unfold same_tables; simpl; repeat split; lia].
  unfold insert_appointment. simpl.
  destruct (existsb _ (appointments d)) eqn:Hdup;
    [left; unfold same_tables; simpl; repeat split; lia|].
  destruct (negb _) eqn:Hfk;
    [left; unfold same_tables; simpl; repeat split; lia|].
  right. exists slot, scheduledAt. repeat split; auto.
  simpl. now rewrite claim_rows_by_id.
Qed.





(** Every answer of the cancel handler either leaves the store alone or is
    the delete of the appointment followed by the release of its key. *)
Lemma cancel_appointment_cases (tz : time_zone) (u : jwt_user) (apptId : Z)
    (d : db) :
  snd (cancel_appointment tz u apptId d) = d
  \/ exists a,
       select_appointment apptId d = Some a
       /\ snd (cancel_appointment tz u apptId d)
          = update_slot_set_free (a_doctor_user_id a) (tz (a_scheduled_at a))
                                 (delete_appointment apptId d).
Proof.
  unfold cancel_appointment.
  destruct (select_appointment apptId d) as [a|] eqn:Hsel; [|now left].
  destruct (negb _ && negb _); [now left|].
  right. now exists a.
Qed.




(** ** DELETE /appointments/:id *)

Lemma select_appointment_none (apptId : Z) (d : db) :
  (forall a, In a (appointments d) -> a_id a <> apptId) ->
  select_appointment apptId d = None.
Proof.
  intros H. unfold select_appointment. apply find_none_iff.
  intros a Hin. apply Z.eqb_neq. now apply H.
Qed.

(** C6. Cancelling answers 404 (NotFound) when no appointment has the id,
    and 403 (Forbidden), with the store as it was, for every caller who is
    neither the appointment's patient with role patient nor its doctor with
    role doctor; in whatever time zone. *)
Theorem cancel_not_found_or_forbidden (tz : time_zone) (u : jwt_user)
    (apptId : Z) (d : db) :
  ((forall a, In a (appointments d) -> a_id a <> apptId) ->
   cancel_appointment tz u apptId d
   = (res 404 (Message "Appointment not found"), d))
  /\ (forall a, select_appointment apptId d = Some a ->
      ~ (a_patient_user_id a = jwt_id u /\ jwt_role u = "patient") ->
      ~ (a_doctor_user_id a = jwt_id u /\ jwt_role u = "doctor") ->
      cancel_appointment tz u apptId d
      = (res 403 (Message "Not authorized to cancel this appointment"), d)).
Proof.
  split.
  - intros Hnone. unfold cancel_appointment.
    now rewrite select_appointment_none.
  - intros a Hsel Hp Hd. unfold cancel_appointment. rewrite Hsel.
    assert ((a_patient_user_id a =? jwt_id u)
            && (jwt_role u =? "patient")%string = false) as ->.
    { apply not_true_is_false. rewrite andb_true_iff, Z.eqb_eq, String.eqb_eq.
      exact Hp. }
    assert ((a_doctor_user_id a =? jwt_id u)
            && (jwt_role u =? "doctor")%string = false) as ->.
    { apply not_true_is_false. rewrite andb_true_iff, Z.eqb_eq, String.eqb_eq.
      exact Hd. }
    reflexivity.
Qed.

(** A caller who may cancel: the appointment's patient, or its doctor. *)
Lemma cancel_appointment_authorized (tz : time_zone) (u : jwt_user)
    (apptId : Z) (d : db) (a : appointment) :
  select_appointment apptId d = Some a ->
  (a_patient_user_id a = jwt_id u /\ jwt_role u = "patient")
  \/ (a_doctor_user_id a = jwt_id u /\ jwt_role u = "doctor") ->
  cancel_appointment tz u apptId d
  = (res 200 (Message "Appointment canceled"),
     update_slot_set_free (a_doctor_user_id a) (tz (a_scheduled_at a))
                          (delete_appointment apptId d)).
Proof.
  intros Hsel Hauth. unfold cancel_appointment. rewrite Hsel.
  destruct Hauth as [[-> ->]|[-> ->]]; rewrite Z.eqb_refl; simpl;
    rewrite ?andb_false_r; reflexivity.
Qed.

(** C9. When no slot row has the appointment's [(doctor_id, scheduled_time)],
    as the release statement is given it (the doctor and the time written
    back for the appointment's, in whatever time zone), cancelling still
    answers 200 "Appointment canceled": the appointment is deleted, the
    slots are as they were, and no error is reported. *)
Theorem cancel_without_slot (tz : time_zone) (u : jwt_user) (apptId : Z)
    (d : db) (a : appointment) :
  select_appointment apptId d = Some a ->
  (a_patient_user_id a = jwt_id u /\ jwt_role u = "patient")
  \/ (a_doctor_user_id a = jwt_id u /\ jwt_role u = "doctor") ->
  (forall scheduledAt ds,
     tz (a_scheduled_at a) = Some scheduledAt -> In ds (doctor_slots d) ->
     slot_key ds <> (a_doctor_user_id a, scheduledAt)) ->
  exists d',
    cancel_appointment tz u apptId d
    = (res 200 (Message "Appointment canceled"), d')
    /\ select_appointment apptId d' = None
    /\ appointments d'
       = filter (fun x => negb (a_id x =? apptId)) (appointments d)
    /\ doctor_slots d' = doctor_slots d
    /\ users d' = users d.
Proof.
  intros Hsel Hauth Hnone.
  rewrite (cancel_appointment_authorized tz u apptId d a Hsel Hauth).
  assert (Hgone : select_appointment apptId (delete_appointment apptId d)
                  = None).
  { unfold select_appointment; simpl. apply find_none_iff.
    intros x Hx. apply filter_In in Hx as [_ Hx].
    now apply negb_true_iff in Hx. }
  eexists. split; [reflexivity|].
  destruct (tz (a_scheduled_at a)) as [scheduledAt|] eqn:Htz; simpl;
    [|repeat split; exact Hgone].
  repeat split; [exact Hgone|].
  apply map_id_on. intros ds Hin.
  destruct (slot_at _ _ ds) eqn:Hat; [|reflexivity].
  apply slot_at_key in Hat. now apply (Hnone scheduledAt ds eq_refl) in Hin.
Qed.

(** ** Booking, cancelling, booking again *)

Lemma find_app_none {A : Type} (f : A -> bool) (l l' : list A) :
  find f l = None -> find f (l ++ l') = find f l'.
Proof.
  induction l as [|x l IH]; simpl; [reflexivity|].
  destruct (f x); [discriminate|exact IH].
Qed.

(** Releasing the key of the slot just booked gives the slot rows back. *)
Lemma release_after_claim (doctorSlotId : Z) (d : db) (slot : doctor_slot) :
  store_ok d -> In slot (doctor_slots d) -> ds_id slot = doctorSlotId ->
  ds_is_booked slot = false ->
  map (fun ds => if slot_at (ds_doctor_user_id slot) (ds_slot_at slot) ds
                 then set_is_booked false ds else ds)
      (map (fun ds => if ds_id ds =? doctorSlotId
                      then set_is_booked true ds else ds) (doctor_slots d))
  = doctor_slots d.
Proof.
  intros Hok Hin Hsid Hfree. rewrite map_map. apply map_id_on.
  intros ds Hds.
  destruct (Z.eqb_spec (ds_id ds) doctorSlotId) as [E|E].
  - assert (ds = slot) as ->.
    { apply (nodup_key_inj ds_id (doctor_slots d)); auto.
      - apply (slots_pk d Hok).
      - congruence. }
    unfold slot_at; simpl. rewrite Z.eqb_refl, String.eqb_refl. simpl.
    rewrite <- Hfree. unfold set_is_booked; simpl. destruct slot; reflexivity.
  - destruct (slot_at _ _ ds) eqn:Hat; [|reflexivity].
    exfalso. apply E. rewrite <- Hsid. f_equal.
    apply (nodup_key_inj slot_key (doctor_slots d)); auto.
    + apply (slots_ux d Hok).
    + now apply slot_at_key in Hat.
Qed.

(** Booking, cancelling, booking again, where the zone has the slot's time.
    On a store that meets its schema and the booking invariant, for a free
    slot whose time is written back as it was read: a patient's claim
    succeeds; cancelling the appointment it made, by that patient or by the
    slot's doctor, succeeds and gives back the rows of before, the slot
    free; a claim of the slot by any patient then succeeds with a new
    appointment, of another id, under the same [(doctor_id,
    scheduled_time)]. *)
Lemma claim_cancel_claim_kept (tz : time_zone) (u1 u2 canceller : jwt_user)
    (doctorSlotId : Z) (now1 now2 : DATETIME) (d : db) (slot : doctor_slot) :
  store_ok d -> slots_of_doctors d -> booking_invariant d ->
  doctorSlotId <> 0 ->
  In slot (doctor_slots d) -> ds_id slot = doctorSlotId ->
  ds_is_booked slot = false ->
  tz (ds_slot_at slot) = Some (ds_slot_at slot) ->
  jwt_role u1 = "patient" -> is_user (jwt_id u1) d = true ->
  jwt_role u2 = "patient" -> is_user (jwt_id u2) d = true ->
  canceller = u1 \/ canceller = mk_jwt (ds_doctor_user_id slot) "doctor" ->
  exists (id1 id2 : Z) (d1 d2 d3 : db),
    post_appointments tz u1 doctorSlotId now1 d
    = (res 201 (Booking id1 (jwt_id u1) (ds_doctor_user_id slot)
                        (Some (ds_slot_at slot)) doctorSlotId), d1)
    /\ cancel_appointment tz canceller id1 d1
       = (res 200 (Message "Appointment canceled"), d2)
    /\ doctor_slots d2 = doctor_slots d
    /\ appointments d2 = appointments d
    /\ select_slot_join_doctor doctorSlotId d2 = Some slot
    /\ post_appointments tz u2 doctorSlotId now2 d2
       = (res 201 (Booking id2 (jwt_id u2) (ds_doctor_user_id slot)
                           (Some (ds_slot_at slot)) doctorSlotId), d3)
    /\ id2 <> id1
    /\ appointments d3
       = appointments d
           ++ [mk_appt id2 (jwt_id u2) (ds_doctor_user_id slot)
                       (ds_slot_at slot) "booked" now2]
    /\ select_slot_join_doctor doctorSlotId d3
       = Some (set_is_booked true slot).
Proof.
  intros Hok Hown Hinv Hid Hin Hsid Hfree Htz Hr1 Hu1 Hr2 Hu2 Hc.
  pose proof (select_slot_join_doctor_in _ _ slot Hok Hown Hin Hsid) as Hsel.
  pose proof (free_slot_no_appointment d slot Hok Hinv Hin Hfree) as Hnone.
  set (id1 := appointments_auto_increment d).
  set (a1 := mk_appt id1 (jwt_id u1) (ds_doctor_user_id slot)
                     (ds_slot_at slot) "booked" now1).
  set (d1 := mk_db (users d)
               (map (fun ds => if ds_id ds =? doctorSlotId
                               then set_is_booked true ds else ds)
                    (doctor_slots d))
               (appointments d ++ [a1])
               (doctor_slots_auto_increment d) (id1 + 1)).
  set (d2 := mk_db (users d) (doctor_slots d) (appointments d)
               (doctor_slots_auto_increment d) (id1 + 1)).
  assert (Hold : forall a, In a (appointments d) -> (a_id a =? id1) = false).
  { intros a Ha. apply Z.eqb_neq. pose proof (appts_ai d Hok a Ha).
    unfold id1. lia. }
  assert (Hsel1 : select_appointment id1 d1 = Some a1).
  { unfold select_appointment, d1; simpl.
    rewrite find_app_none by (now apply find_none_iff).
    simpl. now rewrite Z.eqb_refl. }
  assert (Hcancel : cancel_appointment tz canceller id1 d1
                    = (res 200 (Message "Appointment canceled"), d2)).
  { rewrite (cancel_appointment_authorized tz canceller id1 d1 a1 Hsel1).
    - f_equal. unfold a1 at 2. cbn [a_scheduled_at]. rewrite Htz.
      unfold update_slot_set_free, delete_appointment, d1, d2; simpl.
      unfold set_doctor_slots; simpl. f_equal.
      + now apply release_after_claim.
      + rewrite filter_app; simpl. rewrite Z.eqb_refl; simpl.
        rewrite app_nil_r. apply filter_all.
        intros a Ha. now rewrite (Hold a Ha).
    - destruct Hc as [->| ->]; [left|right]; simpl; auto. }
  assert (Hsame : same_tables d d2).
  { unfold same_tables, d2; simpl. repeat split; lia. }
  assert (Hsel2 : select_slot_join_doctor doctorSlotId d2 = Some slot)
    by exact Hsel.
  exists id1, (id1 + 1), d1, d2. eexists.
  unfold post_appointments.
  rewrite (authorizeRoles_one "patient" u1 Hr1),
          (authorizeRoles_one "patient" u2 Hr2).
  split; [now apply (book_appointment_created tz (jwt_id u1) doctorSlotId
                       now1 d slot (ds_slot_at slot))|].
  split; [exact Hcancel|].
  split; [reflexivity|]. split; [reflexivity|]. split; [exact Hsel2|].
  split; [now apply (book_appointment_created tz (jwt_id u2) doctorSlotId
                       now2 d2 slot (ds_slot_at slot))|].
  split; [lia|]. split; [reflexivity|].
  now apply (select_after_booking doctorSlotId d2).
Qed.

(** ** DELETE /doctor/slots/:id *)

(** C8. For the doctor who calls, on a store that meets its schema:
    deleting a booked slot of theirs answers 409 (Conflict) and leaves the
    store as it was; deleting a free slot of theirs removes the row, and
    only that row; an id that names no slot, or a slot of another doctor,
    answers 404 (NotFound). *)
Theorem delete_slot_outcomes (u : jwt_user) (slotId : Z) (d : db) :
  store_ok d -> jwt_role u = "doctor" ->
  (forall slot, In slot (doctor_slots d) -> ds_id slot = slotId ->
     ds_doctor_user_id slot = jwt_id u -> ds_is_booked slot = true ->
     delete_doctor_slots_id u slotId d
     = (res 409 (Message "Cannot delete a booked slot"), d))
  /\ (forall slot, In slot (doctor_slots d) -> ds_id slot = slotId ->
        ds_doctor_user_id slot = jwt_id u -> ds_is_booked slot = false ->
        exists d',
          delete_doctor_slots_id u slotId d
          = (res 200 (Message "Slot deleted"), d')
          /\ (forall ds, In ds (doctor_slots d') <->
                         In ds (doctor_slots d) /\ ds <> slot)
          /\ appointments d' = appointments d)
  /\ ((forall ds, In ds (doctor_slots d) -> ds_id ds = slotId ->
                  ds_doctor_user_id ds <> jwt_id u) ->
      delete_doctor_slots_id u slotId d
      = (res 404 (Message "Slot not found"), d)).
Proof.
  intros Hok Hrole. unfold delete_doctor_slots_id.
  rewrite (authorizeRoles_one "doctor" u Hrole).
  assert (Hfind : forall slot, In slot (doctor_slots d) -> ds_id slot = slotId ->
                    ds_doctor_user_id slot = jwt_id u ->
                    select_slot_of_doctor slotId (jwt_id u) d = Some slot).
  { intros slot Hin Hsid Hown. unfold select_slot_of_doctor.
    apply (find_unique ds_id); auto.
    - apply (slots_pk d Hok).
    - now rewrite Hsid, Hown, !Z.eqb_refl.
    - intros y _ Hy. apply andb_true_iff in Hy as [Hy _].
      apply Z.eqb_eq in Hy. congruence. }
  repeat split.
  - intros slot Hin Hsid Hown Hbooked. unfold delete_slot.
    now rewrite (Hfind slot Hin Hsid Hown), Hbooked.
  - intros slot Hin Hsid Hown Hfree. unfold delete_slot.
    rewrite (Hfind slot Hin Hsid Hown), Hfree.
    eexists. split; [reflexivity|]. simpl. split; [|reflexivity].
    intros ds. rewrite filter_In, negb_true_iff, Z.eqb_neq.
    split; intros [Hds Hne]; split; auto.
    + intros ->. contradiction.
    + intros E. apply Hne.
      apply (nodup_key_inj ds_id (doctor_slots d)); auto.
      * apply (slots_pk d Hok).
      * congruence.
  - intros Hnone. unfold delete_slot, select_slot_of_doctor.
    rewrite (proj2 (find_none_iff _ _)); [reflexivity|].
    intros ds Hin. apply andb_false_iff.
    destruct (Z.eqb_spec (ds_id ds) slotId) as [E|E]; [right|now left].
    apply Z.eqb_neq. now apply Hnone.
Qed.

(** ** POST /doctor/slots *)

Lemma insert_ignore_doctor_slots_spec (cast : datetime_cast)
    (values : list (Z * string)) (d : db) :
  exists new_rows : list doctor_slot,
    doctor_slots (snd (insert_ignore_doctor_slots cast values d))
    = doctor_slots d ++ new_rows
    /\ fst (insert_ignore_doctor_slots cast values d)
       = Z.of_nat (List.length new_rows)
    /\ users (snd (insert_ignore_doctor_slots cast values d)) = users d
    /\ appointments (snd (insert_ignore_doctor_slots cast values d))
       = appointments d
    /\ Forall (fun r => In (slot_key r)
                           (map (fun v => (fst v, cast (snd v))) values)
                        /\ ds_is_booked r = false
                        /\ existsb (slot_at (ds_doctor_user_id r) (ds_slot_at r))
                                   (doctor_slots d) = false)
              new_rows
    /\ (forall v, In v values -> is_user (fst v) d = true ->
          existsb (slot_at (fst v) (cast (snd v)))
                  (doctor_slots (snd (insert_ignore_doctor_slots cast values d)))
          = true).
Proof.
  revert d. induction values as [|[doctorId s] values IH]; intros d; simpl.
  - exists []. rewrite app_nil_r. repeat split; auto; intros v [].
  - destruct (existsb (slot_at doctorId (cast s)) (doctor_slots d)) eqn:Hdup;
      [|destruct (is_user doctorId d) eqn:Hfk]; simpl.
    + (* already there *)
      destruct (IH (mk_db (users d) (doctor_slots d) (appointments d)
                      (doctor_slots_auto_increment d + 1)
                      (appointments_auto_increment d)))
        as (rows & H1 & H2 & H3 & H4 & H5 & H6).
      simpl in *. exists rows. repeat split; auto.
      * eapply Forall_impl; [|exact H5]. intros r (Hr & ? & ?). auto.
      * intros v [<-|Hv] Hu; [|now apply H6].
        simpl. rewrite H1, existsb_app, Hdup. reflexivity.
    + (* inserted *)
      destruct (IH (set_doctor_slots
                      (doctor_slots d
                         ++ [mk_slot (doctor_slots_auto_increment d)
                                     doctorId (cast s) false])
                      (mk_db (users d) (doctor_slots d) (appointments d)
                         (doctor_slots_auto_increment d + 1)
                         (appointments_auto_increment d))))
        as (rows & H1 & H2 & H3 & H4 & H5 & H6).
      destruct (insert_ignore_doctor_slots cast values _) as [n d2] eqn:Hrec.
      simpl in *.
      exists (mk_slot (doctor_slots_auto_increment d) doctorId (cast s) false
                :: rows).
      split; [rewrite H1; rewrite <- app_assoc; reflexivity|].
      repeat split; auto.
      * rewrite H2. simpl List.length. lia.
      * constructor; [simpl; auto|].
        eapply Forall_impl; [|exact H5]. intros r (Hr & ? & Hno).
        rewrite existsb_app in Hno. apply orb_false_iff in Hno as [Hno _]. auto.
      * intros v [<-|Hv] Hu; [|now apply H6].
        simpl. rewrite H1, !existsb_app. simpl. unfold slot_at at 2; simpl.
        rewrite Z.eqb_refl, String.eqb_refl. simpl.
        now rewrite orb_true_r.
    + (* no such doctor *)
      destruct (IH (mk_db (users d) (doctor_slots d) (appointments d)
                      (doctor_slots_auto_increment d + 1)
                      (appointments_auto_increment d)))
        as (rows & H1 & H2 & H3 & H4 & H5 & H6).
      simpl in *. exists rows. repeat split; auto.
      * eapply Forall_impl; [|exact H5]. intros r (Hr & ? & ?). auto.
      * intros v [<-|Hv] Hu; [|now apply H6].
        simpl in Hu. unfold is_user in Hfk, Hu. congruence.
Qed.

(** Nothing is inserted when every value is there already or names no user. *)
Lemma insert_ignore_doctor_slots_nothing (cast : datetime_cast)
    (values : list (Z * string)) (d : db) :
  (forall v, In v values ->
     existsb (slot_at (fst v) (cast (snd v))) (doctor_slots d) = true
     \/ is_user (fst v) d = false) ->
  fst (insert_ignore_doctor_slots cast values d) = 0
  /\ same_tables d (snd (insert_ignore_doctor_slots cast values d)).
Proof.
  revert d. induction values as [|[doctorId s] values IH]; intros d H; simpl.
  - split; [reflexivity|apply same_tables_refl].
  - assert (existsb (slot_at doctorId (cast s)) (doctor_slots d)
            || negb (is_user doctorId d) = true) as ->.
    { destruct (H (doctorId, s) (or_introl eq_refl)) as [Hp | Hu].
      - simpl in Hp. now rewrite Hp.
      - simpl in Hu. rewrite Hu. simpl. apply orb_true_r. }
    destruct (IH (mk_db (users d) (doctor_slots d) (appointments d)
                    (doctor_slots_auto_increment d + 1)
                    (appointments_auto_increment d))) as [H0 Hs].
    { intros v Hv. apply (H v). now right. }
    split; [exact H0|].
    destruct Hs as (? & ? & ? & ? & ?). simpl in *.
    unfold same_tables. repeat split; auto; lia.
Qed.

(** C7. Publishing is idempotent.  For every doctor and every list of
    timestamps, whatever the column makes of each of them, the
    [INSERT IGNORE] of the route never fails: it reports the number of rows
    it inserted; the rows that were there stay as they are, a timestamp
    whose time the doctor already has gets no second row, each new row is
    free; run again on the same list it inserts nothing and reports 0.  The
    route, for a non-empty list of well-formed timestamps (it answers 400 to
    any other before it reaches the store), answers 201 with that count,
    and with [inserted = 0] the second time. *)
Theorem publish_idempotent (cast : datetime_cast) (doctorId : Z)
    (slots : list string) (d : db) :
  exists (new_rows : list doctor_slot) (d1 d2 : db),
    insert_ignore_doctor_slots cast (map (fun s => (doctorId, s)) slots) d
    = (Z.of_nat (List.length new_rows), d1)
    /\ doctor_slots d1 = doctor_slots d ++ new_rows
    /\ appointments d1 = appointments d
    /\ Forall (fun r => ds_doctor_user_id r = doctorId
                        /\ In (ds_slot_at r) (map cast slots)
                        /\ ds_is_booked r = false
                        /\ existsb (slot_at doctorId (ds_slot_at r))
                                   (doctor_slots d) = false)
              new_rows
    /\ (is_user doctorId d = true ->
        forall s, In s slots ->
          existsb (slot_at doctorId (cast s)) (doctor_slots d1) = true)
    /\ insert_ignore_doctor_slots cast (map (fun s => (doctorId, s)) slots) d1
       = (0, d2)
    /\ doctor_slots d2 = doctor_slots d1
    /\ appointments d2 = appointments d1
    /\ (forall u : jwt_user,
          jwt_id u = doctorId -> jwt_role u = "doctor" ->
          slots <> [] ->
          (forall s, In s slots -> validateDateTimeSQL s = true) ->
          post_doctor_slots cast u slots d
          = (res 201 (Inserted (Z.of_nat (List.length new_rows))), d1)
          /\ post_doctor_slots cast u slots d1 = (res 201 (Inserted 0), d2)).
Proof.
  set (values := map (fun s => (doctorId, s)) slots).
  destruct (insert_ignore_doctor_slots_spec cast values d)
    as (rows & H1 & H2 & H3 & H4 & H5 & H6).
  destruct (insert_ignore_doctor_slots cast values d) as [n d1] eqn:Hfirst.
  simpl in *.
  assert (Hagain : forall v, In v values ->
            existsb (slot_at (fst v) (cast (snd v))) (doctor_slots d1) = true
            \/ is_user (fst v) d1 = false).
  { intros v Hv. destruct (is_user (fst v) d) eqn:Hu.
    - left. now apply H6.
    - right. unfold is_user in *. now rewrite H3. }
  destruct (insert_ignore_doctor_slots_nothing cast values d1 Hagain)
    as [H0 (_ & Hs & Ha & _)].
  destruct (insert_ignore_doctor_slots cast values d1) as [n2 d2] eqn:Hsecond.
  simpl in *. subst n n2.
  assert (Hroute : forall (u : jwt_user) (n' : Z) (d d' : db),
            jwt_id u = doctorId -> jwt_role u = "doctor" -> slots <> [] ->
            (forall s, In s slots -> validateDateTimeSQL s = true) ->
            insert_ignore_doctor_slots cast values d = (n', d') ->
            post_doctor_slots cast u slots d = (res 201 (Inserted n'), d')).
  { intros u n' e e' Hu Hrole Hne Hvalid Hins.
    unfold post_doctor_slots. rewrite (authorizeRoles_one "doctor" u Hrole).
    unfold create_slots.
    assert ((List.length slots =? 0)%nat = false) as ->.
    { destruct slots; [contradiction|reflexivity]. }
    assert (find (fun s => negb (validateDateTimeSQL s)) slots = None) as ->.
    { apply find_none_iff. intros s Hs'. now rewrite (Hvalid s Hs'). }
    rewrite Hu. fold values. now rewrite Hins. }
  exists rows, d1, d2.
  split; [reflexivity|]. split; [exact H1|]. split; [exact H4|].
  split; [|split; [|split; [exact Hsecond|split; [exact Hs|split; [exact Ha|]]]]].
  - eapply Forall_impl; [|exact H5]. intros r (Hr & Hb & Hno).
    unfold values in Hr. rewrite map_map in Hr. simpl in Hr.
    apply in_map_iff in Hr as (s & Hk & Hs').
    unfold slot_key in Hk. injection Hk as Hd Ht. subst doctorId.
    repeat split; auto. rewrite <- Ht. now apply in_map.
  - intros Hu s Hs'. apply (H6 (doctorId, s)); [|exact Hu].
    unfold values. apply in_map_iff. now exists s.
  - intros u Hu Hrole Hne Hvalid. split; now apply Hroute.
Qed.

(** ** The clock *)

Lemma insert_by_slot_at_in (ds x : doctor_slot) (l : list doctor_slot) :
  In x (insert_by_slot_at ds l) <-> x = ds \/ In x l.
Proof.
  induction l as [|y l IH]; simpl.
  - intuition.
  - destruct (String.leb _ _); simpl; [intuition|]. rewrite IH. intuition.
Qed.

Lemma order_by_slot_at_in (x : doctor_slot) (l : list doctor_slot) :
  In x (order_by_slot_at l) <-> In x l.
Proof.
  induction l as [|y l IH]; simpl; [reflexivity|].
  rewrite insert_by_slot_at_in, IH. intuition.
Qed.




(** ** Requests in flight *)

(** The steps of a request alone are the handler. *)
Lemma book_appointment_alone (tz : time_zone) (patientId doctorSlotId : Z)
    (now : DATETIME) (d : db) :
  run_alone tz 4 doctorSlotId d (mk_task patientId now AtSelect)
  = (snd (book_appointment tz patientId doctorSlotId now d),
     mk_task patientId now
       (Finished (fst (book_appointment tz patientId doctorSlotId now d)))).
Proof.
  unfold book_appointment.
  cbn [run_alone task_step at_pc t_pc t_patientId t_now].
  destruct (doctorSlotId =? 0); [reflexivity|].
  destruct (select_slot_join_doctor doctorSlotId d) as [slot|]; [|reflexivity].
  destruct (ds_is_booked slot); [reflexivity|].
  cbn [run_alone task_step at_pc t_pc t_patientId t_now].
  destruct (update_slot_set_booked doctorSlotId d) as [affectedRows tx1].
  destruct (affectedRows =? 0); [reflexivity|].
  cbn [run_alone task_step at_pc t_pc t_patientId t_now].
  destruct (insert_appointment _ _ _ _ _ tx1) as [[insertId|e] tx2]; reflexivity.
Qed.




Lemma no_holders_unlocked (ts : list task) :
  holders ts = 0%nat -> existsb holds_row_lock ts = false.
Proof.
  unfold holders. intros H. apply existsb_false_iff. apply filter_nil_iff.
  now apply length_zero_iff_nil.
Qed.



(** *** The invariant of a race *)

Section Race.
Variable tz : time_zone.
Variable doctorSlotId : Z.
Variable d0 : db.
Variable slot : doctor_slot.
Variable scheduledAt : DATETIME.
Hypothesis Hid : doctorSlotId <> 0.
Hypothesis Hsel : select_slot_join_doctor doctorSlotId d0 = Some slot.
Hypothesis Hfree : ds_is_booked slot = false.
Hypothesis Htz : tz (ds_slot_at slot) = Some scheduledAt.
Hypothesis Hnone :
  existsb (appt_at (ds_doctor_user_id slot) scheduledAt)
          (appointments d0) = false.





End Race.




(** *** Every race comes to an end *)









(** ** The routes on the example stores *)

(** The scenario of the specification: the doctor publishes a slot, a first
    patient claims it, a second is refused, the first cancels, the second
    claims it. *)
Example scenario :
  let d0 := mk_db [mk_user 10 "doctor"; mk_user 20 "patient";
                   mk_user 21 "patient"] [] [] 1 1 in
  let (r1, d1) := post_doctor_slots as_written (mk_jwt 10 "doctor")
                                    ["2025-03-01 10:00:00"] d0 in
  let (r2, d2) := post_appointments new_york_2025 (mk_jwt 20 "patient") 1
                                    "2025-02-20 08:00:00" d1 in
  let (r3, d3) := post_appointments new_york_2025 (mk_jwt 21 "patient") 1
                                    "2025-02-20 08:01:00" d2 in
  let (r4, d4) := cancel_appointment new_york_2025 (mk_jwt 20 "patient") 1
                                     d3 in
  let (r5, d5) := post_appointments new_york_2025 (mk_jwt 21 "patient") 1
                                    "2025-02-20 08:02:00" d4 in
  r1 = res 201 (Inserted 1)
  /\ r2 = res 201 (Booking 1 20 10 (Some "2025-03-01 10:00:00") 1)
  /\ r3 = res 409 (Message "Slot already booked")
  /\ r4 = res 200 (Message "Appointment canceled")
  /\ doctor_slots d4 = [mk_slot 1 10 "2025-03-01 10:00:00" false]
  /\ r5 = res 201 (Booking 2 21 10 (Some "2025-03-01 10:00:00") 1)
  /\ doctor_slots d5 = [mk_slot 1 10 "2025-03-01 10:00:00" true].
Proof. vm_compute. repeat split. Qed.

(** Three requests for slot 1 in flight: the first two read the slot as
    free before either begins its transaction; the third arrives after the
    winner has committed. *)
Example interleaving :
  option_map (fun w => map t_pc (snd w))
             (run_schedule keeps_time 1 [0; 1; 0; 0; 0; 1; 2]%nat
                           (example_db, arriving example_callers))
  = Some [Finished (res 201 (Booking 2 20 10 (Some "2025-03-01 10:00:00") 1));
          Finished (res 409 (Message "Slot already booked (race)"));
          Finished (res 409 (Message "Slot already booked"))].
Proof. vm_compute. reflexivity. Qed.

(** While the first request holds the row, the update of the second waits. *)
Example update_waits :
  run_schedule keeps_time 1 [0; 1; 0; 1]%nat
               (example_db, arriving example_callers)
  = None.
Proof. vm_compute. reflexivity. Qed.


(** C4, as the specification has it, fails: on [drifted_db] the insert of
    the booking breaks [ux_appt_doctor_time] and the route answers 500, not
    409. *)
Lemma insert_failure_not_conflict :
  ~ insert_failure_answers_conflict keeps_time.
Proof.
  intros H.
  assert (E : res_status
                (fst (post_appointments keeps_time (mk_jwt 20 "patient") 1
                        "2025-02-20 08:00:00" drifted_db)) = 409).
  { apply (H (mk_jwt 20 "patient") 1 "2025-02-20 08:00:00" drifted_db
             free_slot_1 ER_DUP_ENTRY);
      [reflexivity|discriminate|reflexivity|reflexivity|reflexivity]. }
  vm_compute in E. discriminate E.
Qed.

Example insert_failure_on_drift :
  post_appointments keeps_time (mk_jwt 20 "patient") 1 "2025-02-20 08:00:00"
                    drifted_db
  = (res 500 (Message "Failed to book slot"),
     mk_db (users drifted_db) (doctor_slots drifted_db)
           (appointments drifted_db) 2 3).
Proof. vm_compute. reflexivity. Qed.

Lemma example_db_ok :
  store_ok example_db /\ slots_of_doctors example_db
  /\ booking_invariant example_db.
Proof.
  split; [apply store_okb_sound|split;
          [apply slots_of_doctorsb_sound|apply booking_invariantb_sound]];
    reflexivity.
Qed.

Lemma gap_db_ok :
  store_ok gap_db /\ slots_of_doctors gap_db /\ booking_invariant gap_db.
Proof.
  split; [apply store_okb_sound|split;
          [apply slots_of_doctorsb_sound|apply booking_invariantb_sound]];
    reflexivity.
Qed.

(** *** A slot in the hour the zone skips

    The server runs in New York time.  Doctor 10 publishes a slot at 02:30
    on 9 March 2025, a time the column holds as it is written; [gap_db] is
    the store after it. *)

Example gap_db_published :
  post_doctor_slots as_written (mk_jwt 10 "doctor") ["2025-03-09 02:30:00"]
                    (empty_tables (users gap_db))
  = (res 201 (Inserted 1), gap_db).
Proof. vm_compute. reflexivity. Qed.

(** C1 at this input.  [gap_db] meets its schema and the booking invariant.
    Patient 20 books the slot: the route answers 201 and commits, and at
    this commit the slot is booked while no appointment has its
    [(doctor_id, scheduled_time)]: the appointment was inserted at 03:30,
    the time the [Date] made of 02:30 is written back as.  The invariant
    does not hold there. *)
Theorem invariant_lost_in_skipped_hour :
  store_ok gap_db /\ slots_of_doctors gap_db /\ booking_invariant gap_db
  /\ exists d1,
       commits new_york_2025
               [ReqBook (mk_jwt 20 "patient") 1 "2025-03-01 09:00:00"] gap_db
       = [d1]
       /\ fst (handle new_york_2025
                      (ReqBook (mk_jwt 20 "patient") 1 "2025-03-01 09:00:00")
                      gap_db)
          = res 201 (Booking 1 20 10 (Some "2025-03-09 03:30:00") 1)
       /\ In (mk_slot 1 10 "2025-03-09 02:30:00" true) (doctor_slots d1)
       /\ appointments_at 10 "2025-03-09 02:30:00" d1 = []
       /\ ~ booking_invariant d1.
Proof.
  destruct gap_db_ok as (Hok & Hown & Hinv).
  split; [exact Hok|]. split; [exact Hown|]. split; [exact Hinv|].
  eexists. split; [vm_compute; reflexivity|].
  split; [vm_compute; reflexivity|].
  split; [left; reflexivity|]. split; [reflexivity|].
  intros H.
  specialize (H (mk_slot 1 10 "2025-03-09 02:30:00" true)
                (or_introl eq_refl)).
  destruct H as [H _]. specialize (H eq_refl).
  vm_compute in H. discriminate H.
Qed.

(** C2 at this input.  The slot of id 1 is free and its time is 02:30; the
    claim answers 201 with an appointment, and books the slot, but the
    appointment created, and the answer, carry 03:30: not the slot's
    scheduled time. *)
Theorem claim_off_the_slot_time :
  select_slot_join_doctor 1 gap_db
  = Some (mk_slot 1 10 "2025-03-09 02:30:00" false)
  /\ post_appointments new_york_2025 (mk_jwt 20 "patient") 1
                       "2025-03-01 09:00:00" gap_db
     = (res 201 (Booking 1 20 10 (Some "2025-03-09 03:30:00") 1),
        mk_db (users gap_db)
              [mk_slot 1 10 "2025-03-09 02:30:00" true]
              [mk_appt 1 20 10 "2025-03-09 03:30:00" "booked"
                       "2025-03-01 09:00:00"]
              2 2)
  /\ "2025-03-09 03:30:00" <> "2025-03-09 02:30:00".
Proof.
  split; [reflexivity|]. split; [vm_compute; reflexivity|].
  intros H. discriminate H.
Qed.

(** C5 at this input.  Patient 20 claims the free slot and cancels the
    appointment made; the cancellation answers 200 and deletes the
    appointment, but its release looks for a slot of the doctor at 03:30 and
    finds none: the slot stays booked with no appointment, and the claim of
    patient 21 is answered 409. *)
Theorem cancel_leaves_slot_booked_in_skipped_hour :
  let (r1, d1) := post_appointments new_york_2025 (mk_jwt 20 "patient") 1
                                    "2025-03-01 09:00:00" gap_db in
  let (r2, d2) := cancel_appointment new_york_2025 (mk_jwt 20 "patient") 1
                                     d1 in
  let (r3, d3) := post_appointments new_york_2025 (mk_jwt 21 "patient") 1
                                    "2025-03-01 09:10:00" d2 in
  r1 = res 201 (Booking 1 20 10 (Some "2025-03-09 03:30:00") 1)
  /\ r2 = res 200 (Message "Appointment canceled")
  /\ appointments d2 = []
  /\ doctor_slots d2 = [mk_slot 1 10 "2025-03-09 02:30:00" true]
  /\ r3 = res 409 (Message "Slot already booked")
  /\ d3 = d2.
Proof. vm_compute. repeat split. Qed.

(** *** The theorems of the claims at concrete inputs *)


(** The failed insert on [drifted_db]. *)
Lemma insert_failure_rolls_back_witness :
  fst (insert_appointment 20 10 (keeps_time "2025-03-01 10:00:00") "booked"
         "2025-02-20 08:00:00" (snd (update_slot_set_booked 1 drifted_db)))
  = SqlError ER_DUP_ENTRY
  /\ exists d',
       post_appointments keeps_time (mk_jwt 20 "patient") 1
                         "2025-02-20 08:00:00" drifted_db
       = (res 500 (Message "Failed to book slot"), d')
       /\ users d' = users drifted_db
       /\ doctor_slots d' = doctor_slots drifted_db
       /\ appointments d' = appointments drifted_db
       /\ select_slot_join_doctor 1 d' = Some free_slot_1.
Proof.
  split; [reflexivity|].
  apply (insert_failure_rolls_back keeps_time (mk_jwt 20 "patient") 1
           "2025-02-20 08:00:00" drifted_db free_slot_1 ER_DUP_ENTRY);
    [reflexivity|discriminate|reflexivity|reflexivity|reflexivity].
Defined.

(** Cancelling on [example_db]: no such appointment, and two strangers. *)
Lemma cancel_not_found_or_forbidden_witness :
  cancel_appointment keeps_time (mk_jwt 22 "patient") 7 example_db
  = (res 404 (Message "Appointment not found"), example_db)
  /\ cancel_appointment keeps_time (mk_jwt 21 "patient") 1 example_db
     = (res 403 (Message "Not authorized to cancel this appointment"),
        example_db)
  /\ cancel_appointment keeps_time (mk_jwt 22 "doctor") 1 example_db
     = (res 403 (Message "Not authorized to cancel this appointment"),
        example_db).
Proof.
  split; [|split].
  - apply (cancel_not_found_or_forbidden keeps_time (mk_jwt 22 "patient") 7
             example_db).
    intros a [<-|[]]; discriminate.
  - apply (cancel_not_found_or_forbidden keeps_time (mk_jwt 21 "patient") 1
             example_db)
      with (a := mk_appt 1 22 10 "2025-03-01 11:00:00" "booked"
                         "2025-02-01 09:00:00");
      [reflexivity|intros [E _]; discriminate E|intros [E _]; discriminate E].
  - apply (cancel_not_found_or_forbidden keeps_time (mk_jwt 22 "doctor") 1
             example_db)
      with (a := mk_appt 1 22 10 "2025-03-01 11:00:00" "booked"
                         "2025-02-01 09:00:00");
      [reflexivity|intros [_ E]; discriminate E|intros [E _]; discriminate E].
Defined.

(** Doctor 10 publishes three timestamps on [example_db], twice. *)
Lemma publish_idempotent_witness :
  exists (new_rows : list doctor_slot) (d1 d2 : db),
    post_doctor_slots as_written (mk_jwt 10 "doctor")
      ["2025-03-01 10:00:00"; "2025-03-01 12:00:00"; "2025-03-01 12:00:00"]
      example_db
    = (res 201 (Inserted (Z.of_nat (List.length new_rows))), d1)
    /\ doctor_slots d1 = doctor_slots example_db ++ new_rows
    /\ post_doctor_slots as_written (mk_jwt 10 "doctor")
         ["2025-03-01 10:00:00"; "2025-03-01 12:00:00"; "2025-03-01 12:00:00"]
         d1
       = (res 201 (Inserted 0), d2)
    /\ doctor_slots d2 = doctor_slots d1.
Proof.
  destruct (publish_idempotent as_written 10
              ["2025-03-01 10:00:00"; "2025-03-01 12:00:00";
               "2025-03-01 12:00:00"] example_db)
    as (rows & d1 & d2 & _ & H2 & _ & _ & _ & _ & H7 & _ & Hroute).
  destruct (Hroute (mk_jwt 10 "doctor")) as [R1 R2];
    [reflexivity|reflexivity|discriminate| |].
  - intros s [<-|[<-|[<-|[]]]]; reflexivity.
  - exists rows, d1, d2. repeat split; assumption.
Defined.

(** Doctor 10 deletes slots of [example_db]. *)
Lemma delete_slot_outcomes_witness :
  store_ok example_db
  /\ delete_doctor_slots_id (mk_jwt 10 "doctor") 2 example_db
     = (res 409 (Message "Cannot delete a booked slot"), example_db)
  /\ (exists d',
        delete_doctor_slots_id (mk_jwt 10 "doctor") 1 example_db
        = (res 200 (Message "Slot deleted"), d')
        /\ forall ds, In ds (doctor_slots d') <->
                      In ds (doctor_slots example_db) /\ ds <> free_slot_1)
  /\ delete_doctor_slots_id (mk_jwt 10 "doctor") 9 example_db
     = (res 404 (Message "Slot not found"), example_db).
Proof.
  destruct example_db_ok as (Hok & _ & _).
  split; [exact Hok|].
  destruct (delete_slot_outcomes (mk_jwt 10 "doctor") 2 example_db)
    as (H2 & _ & _); [exact Hok|reflexivity|].
  destruct (delete_slot_outcomes (mk_jwt 10 "doctor") 1 example_db)
    as (_ & H1 & _); [exact Hok|reflexivity|].
  destruct (delete_slot_outcomes (mk_jwt 10 "doctor") 9 example_db)
    as (_ & _ & H9); [exact Hok|reflexivity|].
  split; [|split].
  - apply (H2 (mk_slot 2 10 "2025-03-01 11:00:00" true));
      [simpl; auto|reflexivity|reflexivity|reflexivity].
  - destruct (H1 free_slot_1) as (d' & Hd & Hrows & _);
      [simpl; auto|reflexivity|reflexivity|reflexivity|].
    exists d'. split; assumption.
  - apply H9. intros ds [<-|[<-|[]]]; discriminate.
Defined.

(** Cancelling on [orphan_db], where no slot has the appointment's key. *)
Lemma cancel_without_slot_witness :
  (forall scheduledAt ds,
     keeps_time "2025-03-05 09:00:00" = Some scheduledAt ->
     In ds (doctor_slots orphan_db) ->
     slot_key ds <> (10, scheduledAt))
  /\ exists d',
       cancel_appointment keeps_time (mk_jwt 22 "patient") 1 orphan_db
       = (res 200 (Message "Appointment canceled"), d')
       /\ select_appointment 1 d' = None
       /\ appointments d'
          = filter (fun x => negb (a_id x =? 1)) (appointments orphan_db)
       /\ doctor_slots d' = doctor_slots orphan_db
       /\ users d' = users orphan_db.
Proof.
  assert (H : forall scheduledAt ds,
            keeps_time "2025-03-05 09:00:00" = Some scheduledAt ->
            In ds (doctor_slots orphan_db) ->
            slot_key ds <> (10, scheduledAt)).
  { intros scheduledAt ds [= <-] [<-|[]]; discriminate. }
  split; [exact H|].
  apply (cancel_without_slot keeps_time (mk_jwt 22 "patient") 1 orphan_db
           (mk_appt 1 22 10 "2025-03-05 09:00:00" "booked"
                    "2025-02-01 09:00:00"));
    [reflexivity|left; split; reflexivity|exact H].
Defined.


(** * The routes together *)

(** ** What every request keeps *)








(** The delete handler either leaves the store alone or deletes a free slot
    of the caller. *)
Lemma delete_slot_cases (doctorId slotId : Z) (d : db) :
  snd (delete_slot doctorId slotId d) = d
  \/ exists slot,
       select_slot_of_doctor slotId doctorId d = Some slot
       /\ ds_is_booked slot = false
       /\ snd (delete_slot doctorId slotId d) = delete_doctor_slot slotId d.
Proof.
  unfold delete_slot.
  destruct (select_slot_of_doctor slotId doctorId d) as [slot|] eqn:Hsel;
    [|now left].
  destruct (ds_is_booked slot) eqn:Hfree; [now left|].
  right. now exists slot.
Qed.






(** ** Who can write what *)

Lemma authorizeRoles_other (role : string) (u : jwt_user) :
  jwt_role u <> role -> authorizeRoles [role] u = false.
Proof.
  intros H. unfold authorizeRoles; simpl. rewrite orb_false_r.
  now apply String.eqb_neq.
Qed.

Lemma slot_ident_set_is_booked (b : bool) (f : doctor_slot -> bool)
    (l : list doctor_slot) :
  map slot_ident (map (fun ds => if f ds then set_is_booked b ds else ds) l)
  = map slot_ident l.
Proof.
  rewrite map_map. apply map_ext. intros ds. destruct (f ds); reflexivity.
Qed.

(** A booking or a cancellation flips flags; it adds and removes no slot. *)
Lemma post_appointments_slot_idents (tz : time_zone) (u : jwt_user)
    (doctorSlotId : Z) (now : DATETIME) (d : db) :
  map slot_ident
      (doctor_slots (snd (post_appointments tz u doctorSlotId now d)))
  = map slot_ident (doctor_slots d).
Proof.
  unfold post_appointments. destruct (authorizeRoles _ u); [|reflexivity].
  destruct (book_appointment_cases tz (jwt_id u) doctorSlotId now d)
    as [(_ & Hs & _)|(slot & scheduledAt & _ & _ & _ & _ & ->)].
  - now rewrite Hs.
  - simpl. apply slot_ident_set_is_booked.
Qed.

Lemma cancel_appointment_slot_idents (tz : time_zone) (u : jwt_user)
    (apptId : Z) (d : db) :
  map slot_ident (doctor_slots (snd (cancel_appointment tz u apptId d)))
  = map slot_ident (doctor_slots d).
Proof.
  destruct (cancel_appointment_cases tz u apptId d) as [->|(a & _ & ->)];
    [reflexivity|].
  destruct (tz (a_scheduled_at a)); simpl; [|reflexivity].
  apply slot_ident_set_is_booked.
Qed.

Lemma cancel_appointment_appointments (tz : time_zone) (u : jwt_user)
    (apptId : Z) (d : db) :
  incl (appointments (snd (cancel_appointment tz u apptId d)))
       (appointments d).
Proof.
  destruct (cancel_appointment_cases tz u apptId d) as [->|(a & _ & ->)];
    [apply incl_refl|].
  destruct (tz (a_scheduled_at a)); simpl;
    intros x Hx; now apply filter_In in Hx as [Hx _].
Qed.

(** X2. Callers without the doctor role, whatever they ask and in whatever
    order, add and remove no slot: the slot rows keep their ids, doctors and
    times, only booked flags move.  Callers without the patient role create
    no appointment: every appointment row left was there before.  This
    holds in every time zone, whatever the column makes of a timestamp. *)
Theorem roles_bound_writes (tz : time_zone) (cast : datetime_cast)
    (rs : list booking_request) (d : db) :
  (Forall (fun r => jwt_role (caller r) <> "doctor") rs ->
   map slot_ident (doctor_slots (serve_all tz cast rs d))
   = map slot_ident (doctor_slots d))
  /\ (Forall (fun r => jwt_role (caller r) <> "patient") rs ->
      incl (appointments (serve_all tz cast rs d)) (appointments d)).
Proof.
  split; revert d; induction rs as [|r rs IH]; intros d Hall;
    try reflexivity; try apply incl_refl;
    inversion Hall as [|? ? Hr Hrs]; subst;
    unfold serve_all in *; simpl;
    specialize (IH (snd (serve tz cast r d)) Hrs).
  - rewrite IH. destruct r as [u slots|u slotId|u sid now|u apptId];
      simpl in *.
    + unfold post_doctor_slots. now rewrite (authorizeRoles_other "doctor" u).
    + unfold delete_doctor_slots_id.
      now rewrite (authorizeRoles_other "doctor" u).
    + apply post_appointments_slot_idents.
    + apply cancel_appointment_slot_idents.
  - eapply incl_tran; [exact IH|].
    destruct r as [u slots|u slotId|u sid now|u apptId]; simpl in *.
    + unfold post_doctor_slots, create_slots.
      destruct (authorizeRoles _ u); [|apply incl_refl].
      destruct (List.length slots =? 0)%nat; [apply incl_refl|].
      destruct (find _ slots); [apply incl_refl|].
      destruct (insert_ignore_doctor_slots_spec cast
                  (map (fun s => (jwt_id u, s)) slots) d)
        as (rows & _ & _ & _ & Ha & _).
      destruct (insert_ignore_doctor_slots cast _ d) as [n d']. simpl in *.
      rewrite Ha. apply incl_refl.
    + unfold delete_doctor_slots_id.
      destruct (authorizeRoles _ u); [|apply incl_refl].
      destruct (delete_slot_cases (jwt_id u) slotId d)
        as [->|(slot & _ & _ & ->)]; apply incl_refl.
    + unfold post_appointments.
      rewrite (authorizeRoles_other "patient" u Hr). apply incl_refl.
    + apply cancel_appointment_appointments.
Qed.

(** ** Publishing: all or nothing *)

(** X3. [POST /doctor/slots] checks the whole list before it touches the store:
    an empty list, or a list with one malformed timestamp anywhere in it, is
    answered 400 and nothing is inserted, not even the well-formed ones; the
    message names the first malformed timestamp. *)
Theorem publish_rejects_whole_list (cast : datetime_cast) (u : jwt_user)
    (slots : list string) (d : db) :
  jwt_role u = "doctor" ->
  (slots = [] ->
   post_doctor_slots cast u slots d
   = (res 400 (Message "slots (array) required"), d))
  /\ (forall before s after,
        slots = before ++ s :: after ->
        (forall x, In x before -> validateDateTimeSQL x = true) ->
        validateDateTimeSQL s = false ->
        post_doctor_slots cast u slots d
        = (res 400 (Message (invalid_slot_format s)), d)).
Proof.
  intros Hrole. unfold post_doctor_slots.
  rewrite (authorizeRoles_one "doctor" u Hrole). unfold create_slots. split.
  - intros ->. reflexivity.
  - intros before s after -> Hvalid Hbad.
    assert ((List.length (before ++ s :: after) =? 0)%nat = false) as ->.
    { rewrite length_app. simpl. apply Nat.eqb_neq. lia. }
    rewrite find_app_none by (apply find_none_iff; intros x Hx;
                              now rewrite (Hvalid x Hx)).
    simpl. now rewrite Hbad.
Qed.

(** ** After a booking, a cancellation, a deletion *)

(** What a 201 of the booking handler tells. *)
Lemma book_appointment_201 (tz : time_zone) (patientId doctorSlotId : Z)
    (now : DATETIME) (d : db) :
  res_status (fst (book_appointment tz patientId doctorSlotId now d)) = 201 ->
  exists slot scheduledAt,
    doctorSlotId <> 0
    /\ select_slot_join_doctor doctorSlotId d = Some slot
    /\ ds_is_booked slot = false
    /\ tz (ds_slot_at slot) = Some scheduledAt
    /\ existsb (appt_at (ds_doctor_user_id slot) scheduledAt)
               (appointments d) = false
    /\ is_user patientId d = true
    /\ is_user (ds_doctor_user_id slot) d = true.
Proof.
  unfold book_appointment.
  destruct (Z.eqb_spec doctorSlotId 0) as [|Hid];
    [simpl; intros H0; discriminate H0|].
  destruct (select_slot_join_doctor doctorSlotId d) as [slot|] eqn:Hsel;
    [|simpl; intros H0; discriminate H0].
  destruct (ds_is_booked slot) eqn:Hfree; [simpl; intros H0; discriminate H0|].
  unfold update_slot_set_booked.
  destruct (Z.of_nat _ =? 0); [simpl; intros H0; discriminate H0|].
  destruct (tz (ds_slot_at slot)) as [scheduledAt|] eqn:Htz;
    [|simpl; intros H0; discriminate H0].
  unfold insert_appointment. simpl.
  destruct (existsb _ (appointments d)) eqn:Hdup;
    [simpl; intros H0; discriminate H0|].
  destruct (negb _) eqn:Hfk; [simpl; intros H0; discriminate H0|].
  apply negb_false_iff, andb_true_iff in Hfk as [Hp Hd].
  intros _. exists slot, scheduledAt. repeat split; auto.
Qed.

Lemma post_appointments_201 (tz : time_zone) (u : jwt_user) (doctorSlotId : Z)
    (now : DATETIME) (d : db) :
  res_status (fst (post_appointments tz u doctorSlotId now d)) = 201 ->
  exists slot scheduledAt,
    jwt_role u = "patient"
    /\ doctorSlotId <> 0
    /\ select_slot_join_doctor doctorSlotId d = Some slot
    /\ ds_is_booked slot = false
    /\ tz (ds_slot_at slot) = Some scheduledAt
    /\ is_user (jwt_id u) d = true
    /\ is_user (ds_doctor_user_id slot) d = true
    /\ post_appointments tz u doctorSlotId now d
       = (res 201 (Booking (appointments_auto_increment d) (jwt_id u)
                           (ds_doctor_user_id slot) (Some scheduledAt)
                           doctorSlotId),
          mk_db (users d)
            (map (fun ds => if ds_id ds =? doctorSlotId
                            then set_is_booked true ds else ds)
                 (doctor_slots d))
            (appointments d
               ++ [mk_appt (appointments_auto_increment d) (jwt_id u)
                           (ds_doctor_user_id slot) scheduledAt
                           "booked" now])
            (doctor_slots_auto_increment d)
            (appointments_auto_increment d + 1)).
Proof.
  unfold post_appointments.
  destruct (authorizeRoles ["patient"] u) eqn:Hrole;
    [|simpl; intros H0; discriminate H0].
  intros H201.
  destruct (book_appointment_201 _ _ _ _ _ H201)
    as (slot & scheduledAt & Hid & Hsel & Hfree & Htz & Hnone & Hp & Hd).
  exists slot, scheduledAt. repeat split; auto.
  - unfold authorizeRoles in Hrole. simpl in Hrole.
    rewrite orb_false_r in Hrole. now apply String.eqb_eq in Hrole.
  - now apply book_appointment_created.
Qed.

(** The join finds the slot booked: so it does after any booking. *)
Lemma post_appointments_keeps_booked (tz : time_zone) (u : jwt_user)
    (doctorSlotId slotId : Z) (now : DATETIME) (d : db) :
  (exists s, select_slot_join_doctor slotId d = Some s
             /\ ds_is_booked s = true) ->
  exists s,
    select_slot_join_doctor slotId
      (snd (post_appointments tz u doctorSlotId now d)) = Some s
    /\ ds_is_booked s = true.
Proof.
  intros (s & Hsel & Hbooked).
  unfold post_appointments.
  destruct (authorizeRoles _ u); [|now exists s].
  destruct (book_appointment_cases tz (jwt_id u) doctorSlotId now d)
    as [(Hu & Hs & _)|(slot & scheduledAt & _ & _ & _ & _ & ->)].
  - exists s. unfold select_slot_join_doctor, is_doctor_user in *.
    now rewrite Hs, Hu.
  - unfold select_slot_join_doctor, is_doctor_user in *. simpl.
    rewrite find_map_stable.
    + rewrite Hsel. simpl.
      destruct (ds_id s =? doctorSlotId); [now eexists|now exists s].
    + intros x. destruct (ds_id x =? doctorSlotId); reflexivity.
Qed.

(** X4. Once a booking has answered 201, no booking takes the slot again:
    after any number of further bookings, of any slots, by anyone, at any
    time and whatever their outcome, a booking of that slot by any patient
    is answered 409 "Slot already booked" and changes nothing.  (A
    cancellation is what can free a slot.) *)
Theorem booked_slot_refuses (tz : time_zone) (cast : datetime_cast)
    (u u' : jwt_user) (doctorSlotId : Z) (now now' : DATETIME)
    (rs : list booking_request) (d : db) :
  res_status (fst (post_appointments tz u doctorSlotId now d)) = 201 ->
  Forall is_booking rs ->
  jwt_role u' = "patient" ->
  let d' := serve_all tz cast rs
              (snd (post_appointments tz u doctorSlotId now d)) in
  post_appointments tz u' doctorSlotId now' d'
  = (res 409 (Message "Slot already booked"), d').
Proof.
  intros H201 Hrs Hrole'.
  destruct (post_appointments_201 tz u doctorSlotId now d H201)
    as (slot & scheduledAt & _ & Hid & Hsel & _ & _ & _ & _ & Hpost).
  assert (Hfirst : exists s,
            select_slot_join_doctor doctorSlotId
              (snd (post_appointments tz u doctorSlotId now d)) = Some s
            /\ ds_is_booked s = true).
  { rewrite Hpost. cbn [snd]. exists (set_is_booked true slot).
    split; [|reflexivity].
    erewrite (select_after_booking doctorSlotId d);
      [reflexivity|reflexivity|reflexivity|exact Hsel]. }
  assert (Hlater : forall rs e,
            Forall is_booking rs ->
            (exists s, select_slot_join_doctor doctorSlotId e = Some s
                       /\ ds_is_booked s = true) ->
            exists s,
              select_slot_join_doctor doctorSlotId (serve_all tz cast rs e)
              = Some s
              /\ ds_is_booked s = true).
  { clear. induction rs as [|r rs IH]; intros e Hall He; [exact He|].
    inversion Hall as [|? ? Hr Hrs']; subst.
    unfold serve_all in *. simpl. apply (IH _ Hrs').
    destruct r as [| |u sid now|]; try contradiction. simpl.
    now apply post_appointments_keeps_booked. }
  destruct (Hlater rs _ Hrs Hfirst) as (s & Hs & Hbooked).
  cbv zeta.
  set (d' := serve_all tz cast rs
               (snd (post_appointments tz u doctorSlotId now d))) in *.
  clearbody d'. unfold post_appointments.
  rewrite (authorizeRoles_one "patient" u' Hrole'). unfold book_appointment.
  now rewrite (proj2 (Z.eqb_neq _ _) Hid), Hs, Hbooked.
Qed.

(** What a 200 of the cancel handler tells. *)
Lemma cancel_appointment_200 (tz : time_zone) (u : jwt_user) (apptId : Z)
    (d : db) :
  res_status (fst (cancel_appointment tz u apptId d)) = 200 ->
  exists a,
    select_appointment apptId d = Some a
    /\ cancel_appointment tz u apptId d
       = (res 200 (Message "Appointment canceled"),
          update_slot_set_free (a_doctor_user_id a) (tz (a_scheduled_at a))
                               (delete_appointment apptId d)).
Proof.
  unfold cancel_appointment.
  destruct (select_appointment apptId d) as [a|] eqn:Hsel;
    [|simpl; intros H0; discriminate H0].
  destruct (negb _ && negb _); [simpl; intros H0; discriminate H0|].
  intros _. now exists a.
Qed.

(** X5. A cancellation that has answered 200 cannot be repeated: the same id,
    from any caller, is then answered 404 and changes nothing; in whatever
    time zone. *)
Theorem cancel_once (tz : time_zone) (u u' : jwt_user) (apptId : Z) (d : db) :
  res_status (fst (cancel_appointment tz u apptId d)) = 200 ->
  cancel_appointment tz u' apptId (snd (cancel_appointment tz u apptId d))
  = (res 404 (Message "Appointment not found"),
     snd (cancel_appointment tz u apptId d)).
Proof.
  intros H200.
  destruct (cancel_appointment_200 tz u apptId d H200) as (a & _ & ->).
  cbn [snd]. unfold cancel_appointment.
  assert (select_appointment apptId
            (update_slot_set_free (a_doctor_user_id a) (tz (a_scheduled_at a))
               (delete_appointment apptId d)) = None) as ->; [|reflexivity].
  unfold select_appointment.
  destruct (tz (a_scheduled_at a)); simpl; apply find_none_iff;
    intros x Hx; apply filter_In in Hx as [_ Hx];
    now apply negb_true_iff in Hx.
Qed.

(** X6. Once a slot deletion has answered 200, the id names no slot: a
    patient's booking of it is answered 404, the doctor's second deletion
    too, and no listing of the doctor's slots has a row of that id. *)
Theorem deleted_slot_is_gone (tz : time_zone) (u u' : jwt_user) (slotId : Z)
    (now : DATETIME) (d : db) :
  res_status (fst (delete_doctor_slots_id u slotId d)) = 200 ->
  slotId <> 0 -> jwt_role u' = "patient" ->
  let d' := snd (delete_doctor_slots_id u slotId d) in
  post_appointments tz u' slotId now d'
  = (res 404 (Message "Slot not found"), d')
  /\ delete_doctor_slots_id u slotId d'
     = (res 404 (Message "Slot not found"), d')
  /\ (forall row, In row (select_doctor_slots (jwt_id u) d') ->
                  fst (fst row) <> slotId)
  /\ (forall row, In row (select_future_slots (jwt_id u) now d') ->
                  fst (fst row) <> slotId).
Proof.
  unfold delete_doctor_slots_id at 1.
  destruct (authorizeRoles ["doctor"] u) eqn:Hrole;
    [|simpl; intros H0; discriminate H0].
  unfold delete_slot at 1.
  destruct (select_slot_of_doctor slotId (jwt_id u) d) as [slot|] eqn:Hsel;
    [|simpl; intros H0; discriminate H0].
  destruct (ds_is_booked slot) eqn:Hfree;
    [simpl; intros H0; discriminate H0|].
  intros _ Hid Hrole'.
  assert (Hd' : snd (delete_doctor_slots_id u slotId d)
                = delete_doctor_slot slotId d).
  { unfold delete_doctor_slots_id, delete_slot.
    now rewrite Hrole, Hsel, Hfree. }
  cbv zeta. rewrite Hd'.
  assert (Hgone : forall ds, In ds (doctor_slots (delete_doctor_slot slotId d)) ->
                             ds_id ds <> slotId).
  { intros ds Hds. simpl in Hds. apply filter_In in Hds as [_ Hds].
    now apply negb_true_iff, Z.eqb_neq in Hds. }
  split; [|split; [|split]].
  - unfold post_appointments. rewrite (authorizeRoles_one "patient" u' Hrole').
    unfold book_appointment. rewrite (proj2 (Z.eqb_neq _ _) Hid).
    now rewrite select_slot_join_doctor_none.
  - unfold delete_doctor_slots_id. rewrite Hrole. unfold delete_slot.
    assert (select_slot_of_doctor slotId (jwt_id u)
              (delete_doctor_slot slotId d) = None) as ->; [|reflexivity].
    unfold select_slot_of_doctor. apply find_none_iff. intros ds Hds.
    apply andb_false_iff. left. apply Z.eqb_neq. now apply Hgone.
  - intros row Hrow. unfold select_doctor_slots in Hrow.
    apply in_map_iff in Hrow as (ds & <- & Hds).
    apply (proj1 (order_by_slot_at_in _ _)) in Hds.
    apply filter_In in Hds as [Hds _]. simpl. now apply Hgone.
  - intros row Hrow. unfold select_future_slots in Hrow.
    apply in_map_iff in Hrow as (ds & <- & Hds).
    apply (proj1 (order_by_slot_at_in _ _)) in Hds.
    apply filter_In in Hds as [Hds _]. simpl. now apply Hgone.
Qed.

(** ** The listings *)

Lemma insert_by_slot_at_perm (ds : doctor_slot) (l : list doctor_slot) :
  Permutation (insert_by_slot_at ds l) (ds :: l).
Proof.
  induction l as [|x l IH]; simpl; [reflexivity|].
  destruct (String.leb _ _); [reflexivity|].
  rewrite IH. apply perm_swap.
Qed.

Lemma order_by_slot_at_perm (l : list doctor_slot) :
  Permutation (order_by_slot_at l) l.
Proof.
  induction l as [|x l IH]; simpl; [reflexivity|].
  rewrite insert_by_slot_at_perm. now constructor.
Qed.

Lemma insert_by_slot_at_sorted (ds : doctor_slot) (l : list doctor_slot) :
  Sorted (fun a b => slot_row_leb (slot_row a) (slot_row b)) l ->
  Sorted (fun a b => slot_row_leb (slot_row a) (slot_row b))
         (insert_by_slot_at ds l).
Proof.
  unfold slot_row_leb, slot_row; simpl.
  induction l as [|x l IH]; simpl; intros Hs; [repeat constructor|].
  destruct (String.leb (ds_slot_at ds) (ds_slot_at x)) eqn:Hle.
  - constructor; [exact Hs|]. now constructor.
  - inversion Hs as [|? ? Hl Hhd]; subst. constructor; [now apply IH|].
    assert (Hxd : String.leb (ds_slot_at x) (ds_slot_at ds) = true).
    { destruct (String.leb_total (ds_slot_at ds) (ds_slot_at x)); congruence. }
    destruct l as [|y l]; simpl; [now constructor|].
    destruct (String.leb (ds_slot_at ds) (ds_slot_at y)); constructor; auto.
    now inversion Hhd.
Qed.

Lemma order_by_slot_at_sorted (l : list doctor_slot) :
  Sorted slot_row_leb (map slot_row (order_by_slot_at l)).
Proof.
  assert (H : Sorted (fun a b => slot_row_leb (slot_row a) (slot_row b))
                     (order_by_slot_at l)).
  { induction l as [|x l IH]; simpl; [constructor|].
    now apply insert_by_slot_at_sorted. }
  induction H as [|a l' Hs IH Hhd]; simpl; constructor; auto.
  destruct Hhd; simpl; constructor; auto.
Qed.

(** X7. The two slot listings.  Each is in ascending order of [slot_at]; the
    doctor's own listing has one row for each of the doctor's slots and no
    other; the patient-facing listing has one for each of the doctor's slots
    at or after the store's clock, booked ones too, and no other, so it is
    part of the doctor's own. *)
Theorem slot_listings (doctorId : Z) (now : DATETIME) (d : db) :
  Sorted slot_row_leb (select_doctor_slots doctorId d)
  /\ Permutation (select_doctor_slots doctorId d)
       (map slot_row
            (filter (fun ds => ds_doctor_user_id ds =? doctorId)
                    (doctor_slots d)))
  /\ Sorted slot_row_leb (select_future_slots doctorId now d)
  /\ Permutation (select_future_slots doctorId now d)
       (map slot_row
            (filter (fun ds => (ds_doctor_user_id ds =? doctorId)
                               && String.leb now (ds_slot_at ds))
                    (doctor_slots d)))
  /\ incl (select_future_slots doctorId now d)
          (select_doctor_slots doctorId d).
Proof.
  unfold select_doctor_slots, select_future_slots.
  split; [apply order_by_slot_at_sorted|].
  split; [apply Permutation_map, order_by_slot_at_perm|].
  split; [apply order_by_slot_at_sorted|].
  split; [apply Permutation_map, order_by_slot_at_perm|].
  intros row Hrow. apply in_map_iff in Hrow as (ds & <- & Hds).
  apply in_map_iff. exists ds. split; [reflexivity|].
  apply order_by_slot_at_in.
  apply (proj1 (order_by_slot_at_in _ _)) in Hds.
  apply filter_In in Hds as [Hds Hf]. apply andb_true_iff in Hf as [Hf _].
  apply filter_In. now split.
Qed.

(** What a 201 of the publishing route tells. *)
Lemma post_doctor_slots_201 (cast : datetime_cast) (u : jwt_user)
    (slots : list string) (d : db) :
  res_status (fst (post_doctor_slots cast u slots d)) = 201 ->
  jwt_role u = "doctor"
  /\ snd (post_doctor_slots cast u slots d)
     = snd (insert_ignore_doctor_slots cast
              (map (fun s => (jwt_id u, s)) slots) d).
Proof.
  unfold post_doctor_slots.
  destruct (authorizeRoles ["doctor"] u) eqn:Hrole;
    [|simpl; intros H0; discriminate H0].
  unfold create_slots.
  destruct (List.length slots =? 0)%nat; [simpl; intros H0; discriminate H0|].
  destruct (find _ slots); [simpl; intros H0; discriminate H0|].
  intros _. split.
  - unfold authorizeRoles in Hrole. simpl in Hrole.
    rewrite orb_false_r in Hrole. now apply String.eqb_eq in Hrole.
  - now destruct (insert_ignore_doctor_slots cast _ d).
Qed.

(** X8. Publishing, then listing.  After a publish answered 201 to a doctor
    who is a [users] row, the doctor's own slot query has, for every
    timestamp of the request, a row at the time the column holds for it
    (the timestamp itself when it names a time of the calendar); the slot
    query of any other doctor gives what it gave. *)
Theorem published_slots_are_listed (cast : datetime_cast) (u : jwt_user)
    (slots : list string) (d : db) :
  res_status (fst (post_doctor_slots cast u slots d)) = 201 ->
  is_user (jwt_id u) d = true ->
  (forall s, In s slots ->
     exists slot_id is_booked,
       In (slot_id, cast s, is_booked)
          (select_doctor_slots (jwt_id u)
             (snd (post_doctor_slots cast u slots d))))
  /\ (forall other, other <> jwt_id u ->
        select_doctor_slots other (snd (post_doctor_slots cast u slots d))
        = select_doctor_slots other d).
Proof.
  intros H201 Huser.
  destruct (post_doctor_slots_201 cast u slots d H201) as [_ ->].
  destruct (insert_ignore_doctor_slots_spec cast
              (map (fun s => (jwt_id u, s)) slots) d)
    as (rows & Hs & _ & _ & _ & Hrows & Hthere).
  split.
  - intros s Hs'.
    assert (Hv : In (jwt_id u, s) (map (fun s => (jwt_id u, s)) slots))
      by (apply in_map_iff; now exists s).
    specialize (Hthere _ Hv Huser). simpl in Hthere.
    apply existsb_exists in Hthere as (ds & Hds & Hkey).
    apply andb_true_iff in Hkey as [Hd Ht].
    apply String.eqb_eq in Ht.
    exists (ds_id ds), (ds_is_booked ds). unfold select_doctor_slots.
    apply in_map_iff. exists ds. split; [now rewrite <- Ht|].
    apply order_by_slot_at_in. apply filter_In. now split.
  - intros other Hother. unfold select_doctor_slots. rewrite Hs, filter_app.
    rewrite (proj2 (filter_nil_iff _ rows)); [now rewrite app_nil_r|].
    intros r Hr. rewrite Forall_forall in Hrows.
    destruct (Hrows r Hr) as (Hkey & _).
    rewrite map_map in Hkey. simpl in Hkey.
    apply in_map_iff in Hkey as (s & Hk & _). unfold slot_key in Hk.
    injection Hk as Hd _. apply Z.eqb_neq. congruence.
Qed.

Lemma insert_by_scheduled_at_desc_in (a x : appointment) (l : list appointment) :
  In x (insert_by_scheduled_at_desc a l) <-> x = a \/ In x l.
Proof.
  induction l as [|y l IH]; simpl.
  - intuition.
  - destruct (String.leb _ _); simpl; [intuition|]. rewrite IH. intuition.
Qed.

Lemma order_by_scheduled_at_desc_in (x : appointment) (l : list appointment) :
  In x (order_by_scheduled_at_desc l) <-> In x l.
Proof.
  induction l as [|y l IH]; simpl; [reflexivity|].
  rewrite insert_by_scheduled_at_desc_in, IH. intuition.
Qed.

Lemma insert_by_scheduled_at_desc_sorted (a : appointment)
    (l : list appointment) :
  Sorted scheduled_at_geb l ->
  Sorted scheduled_at_geb (insert_by_scheduled_at_desc a l).
Proof.
  unfold scheduled_at_geb.
  induction l as [|x l IH]; simpl; intros Hs; [repeat constructor|].
  destruct (String.leb (a_scheduled_at x) (a_scheduled_at a)) eqn:Hle.
  - constructor; [exact Hs|]. now constructor.
  - inversion Hs as [|? ? Hl Hhd]; subst. constructor; [now apply IH|].
    assert (Hxa : String.leb (a_scheduled_at a) (a_scheduled_at x) = true).
    { destruct (String.leb_total (a_scheduled_at a) (a_scheduled_at x));
        congruence. }
    destruct l as [|y l]; simpl; [now constructor|].
    destruct (String.leb (a_scheduled_at y) (a_scheduled_at a));
      constructor; auto.
    now inversion Hhd.
Qed.

Lemma order_by_scheduled_at_desc_sorted (l : list appointment) :
  Sorted scheduled_at_geb (order_by_scheduled_at_desc l).
Proof.
  induction l as [|x l IH]; simpl; [constructor|].
  now apply insert_by_scheduled_at_desc_sorted.
Qed.

Lemma select_appointments_of_patient_in (patientId : Z) (d : db)
    (a : appointment) :
  In a (select_appointments_of_patient patientId d) <->
  In a (appointments d) /\ a_patient_user_id a = patientId
  /\ joins_users d a = true.
Proof.
  unfold select_appointments_of_patient.
  rewrite order_by_scheduled_at_desc_in, filter_In, andb_true_iff, Z.eqb_eq.
  intuition.
Qed.

Lemma select_appointments_of_doctor_in (doctorId : Z) (d : db)
    (a : appointment) :
  In a (select_appointments_of_doctor doctorId d) <->
  In a (appointments d) /\ a_doctor_user_id a = doctorId
  /\ joins_users d a = true.
Proof.
  unfold select_appointments_of_doctor.
  rewrite order_by_scheduled_at_desc_in, filter_In, andb_true_iff, Z.eqb_eq.
  intuition.
Qed.

(** X9. The two appointment listings are in descending order of
    [scheduled_at]; the doctor's holds appointments of that doctor only, the
    patient's appointments of that patient only, and each holds every such
    appointment whose patient and doctor are [users] rows. *)
Theorem appointment_listings (userId : Z) (d : db) :
  Sorted scheduled_at_geb (select_appointments_of_doctor userId d)
  /\ Sorted scheduled_at_geb (select_appointments_of_patient userId d)
  /\ (forall a, In a (select_appointments_of_doctor userId d) <->
                In a (appointments d) /\ a_doctor_user_id a = userId
                /\ joins_users d a = true)
  /\ (forall a, In a (select_appointments_of_patient userId d) <->
                In a (appointments d) /\ a_patient_user_id a = userId
                /\ joins_users d a = true).
Proof.
  split; [apply order_by_scheduled_at_desc_sorted|].
  split; [apply order_by_scheduled_at_desc_sorted|].
  split; intros a;
    [apply select_appointments_of_doctor_in
    |apply select_appointments_of_patient_in].
Qed.

Lemma update_slot_set_free_appointments (doctorId : Z) (at_ : Date) (d : db) :
  appointments (update_slot_set_free doctorId at_ d) = appointments d
  /\ users (update_slot_set_free doctorId at_ d) = users d.
Proof. destruct at_; split; reflexivity. Qed.

(** X10. Booking, then listing.  After a booking answered 201, the
    appointment of the id it returned, which has the doctor of the slot and
    the time written back for the slot's time (the slot's time itself where
    the zone has it), is in the appointment query of the patient who booked
    and in that of the slot's doctor; after its cancellation answered 200,
    no appointment query of anyone gives an appointment of that id. *)
Theorem booked_appointment_is_listed (tz : time_zone) (u canceller : jwt_user)
    (doctorSlotId : Z) (now : DATETIME) (d : db) :
  res_status (fst (post_appointments tz u doctorSlotId now d)) = 201 ->
  exists (id : Z) (slot : doctor_slot) (scheduledAt : DATETIME),
    select_slot_join_doctor doctorSlotId d = Some slot
    /\ tz (ds_slot_at slot) = Some scheduledAt
    /\ fst (post_appointments tz u doctorSlotId now d)
       = res 201 (Booking id (jwt_id u) (ds_doctor_user_id slot)
                          (Some scheduledAt) doctorSlotId)
    /\ (let d1 := snd (post_appointments tz u doctorSlotId now d) in
        let a := mk_appt id (jwt_id u) (ds_doctor_user_id slot) scheduledAt
                         "booked" now in
        In a (select_appointments_of_patient (jwt_id u) d1)
        /\ In a (select_appointments_of_doctor (ds_doctor_user_id slot) d1)
        /\ (res_status (fst (cancel_appointment tz canceller id d1)) = 200 ->
            forall userId x,
              (In x (select_appointments_of_patient userId
                       (snd (cancel_appointment tz canceller id d1)))
               \/ In x (select_appointments_of_doctor userId
                          (snd (cancel_appointment tz canceller id d1)))) ->
              a_id x <> id)).
Proof.
  intros H201.
  destruct (post_appointments_201 tz u doctorSlotId now d H201)
    as (slot & scheduledAt & _ & _ & Hsel & _ & Htz & Hp & Hd & ->).
  exists (appointments_auto_increment d), slot, scheduledAt.
  split; [exact Hsel|]. split; [exact Htz|].
  split; [reflexivity|]. cbv zeta. cbn [snd].
  set (a := mk_appt (appointments_auto_increment d) (jwt_id u)
                    (ds_doctor_user_id slot) scheduledAt "booked" now).
  set (d1 := mk_db _ _ _ _ _).
  assert (Hin : In a (appointments d1))
    by (apply in_app_iff; right; now left).
  assert (Hjoin : joins_users d1 a = true).
  { unfold joins_users, is_user in *. simpl. now rewrite Hp, Hd. }
  split; [|split].
  - apply select_appointments_of_patient_in. auto.
  - apply select_appointments_of_doctor_in. auto.
  - intros H200 userId x Hx.
    destruct (cancel_appointment_200 tz canceller _ d1 H200) as (b & _ & E).
    rewrite E in Hx. cbn [snd] in Hx.
    assert (Hx' : In x (filter (fun y => negb (a_id y =? appointments_auto_increment d))
                               (appointments d1))).
    { destruct Hx as [Hx|Hx];
        [apply select_appointments_of_patient_in in Hx
        |apply select_appointments_of_doctor_in in Hx];
        destruct Hx as (Hx & _);
        rewrite (proj1 (update_slot_set_free_appointments _ _ _)) in Hx;
        exact Hx. }
    apply filter_In in Hx' as [_ Hne].
    now apply negb_true_iff, Z.eqb_neq in Hne.
Qed.

(** ** The helpers and the token middleware *)

Lemma matches_length (pattern s : string) :
  matches pattern s = true -> String.length s = String.length pattern.
Proof.
  revert s. induction pattern as [|p pattern IH]; intros [|c s]; simpl;
    try discriminate; [reflexivity|].
  intros H. apply andb_true_iff in H as [_ H]. f_equal. now apply IH.
Qed.

Lemma matches_app (p1 p2 s : string) :
  matches (p1 ++ p2) s = true <->
  exists s1 s2, s = (s1 ++ s2)%string
                /\ matches p1 s1 = true /\ matches p2 s2 = true.
Proof.
  revert s. induction p1 as [|p p1 IH]; intros s; simpl.
  - split.
    + intros H. exists ""%string, s. auto.
    + intros ([|c s1] & s2 & -> & H1 & H2); [exact H2|discriminate].
  - destruct s as [|c s].
    + split; [discriminate|].
      intros ([|c s1] & s2 & E & H1 & H2); discriminate.
    + rewrite andb_true_iff, IH. split.
      * intros (Hc & s1 & s2 & -> & H1 & H2).
        exists (String c s1), s2. simpl. rewrite Hc, H1. auto.
      * intros ([|c' s1] & s2 & E & H1 & H2); [discriminate|].
        simpl in E. injection E as -> ->.
        simpl in H1. apply andb_true_iff in H1 as [Hc H1].
        split; [exact Hc|]. now exists s1, s2.
Qed.

(** X11. A timestamp the routes accept ([validateDateTimeSQL]) is exactly a
    date that [validateDateISO] accepts, one space, and a time of the shape
    two digits, colon, two digits, colon, two digits; it has 19 characters,
    an accepted date 10: nothing may precede or follow. *)
Theorem accepted_timestamps (dt : string) :
  (validateDateTimeSQL dt = true <->
   exists date time,
     dt = (date ++ " " ++ time)%string
     /\ validateDateISO date = true
     /\ matches "dd:dd:dd" time = true)
  /\ (validateDateTimeSQL dt = true -> String.length dt = 19%nat)
  /\ (validateDateISO dt = true -> String.length dt = 10%nat).
Proof.
  split; [|split].
  - unfold validateDateTimeSQL, validateDateISO.
    change "dddd-dd-dd dd:dd:dd" with ("dddd-dd-dd" ++ " dd:dd:dd")%string.
    rewrite matches_app. split.
    + intros (date & rest & -> & Hd & Hr).
      destruct rest as [|c time]; [discriminate|].
      simpl in Hr. apply andb_true_iff in Hr as [Hc Hr].
      destruct c as [[|] [|] [|] [|] [|] [|] [|] [|]]; try discriminate Hc.
      exists date, time. auto.
    + intros (date & time & -> & Hd & Ht).
      exists date, (" " ++ time)%string. repeat split; auto.
  - intros H. now apply matches_length in H.
  - intros H. now apply matches_length in H.
Qed.

Lemma split_space_nonempty (s : string) : split_space s <> [].
Proof.
  destruct s as [|c s]; cbn [split_space]; [discriminate|].
  destruct (Ascii.eqb c " "); [discriminate|].
  destruct (split_space s); discriminate.
Qed.

Lemma split_space_word (w s : string) :
  no_space w = true ->
  split_space (w ++ " " ++ s) = w :: split_space s.
Proof.
  induction w as [|c w IH]; intros H; [reflexivity|].
  cbn [no_space] in H. apply andb_true_iff in H as [Hc Hw].
  apply negb_true_iff in Hc.
  cbn [append split_space] in *. rewrite Hc, (IH Hw). reflexivity.
Qed.

Lemma split_space_last (w : string) :
  no_space w = true -> split_space w = [w].
Proof.
  induction w as [|c w IH]; intros H; [reflexivity|].
  cbn [no_space] in H. apply andb_true_iff in H as [Hc Hw].
  apply negb_true_iff in Hc.
  cbn [append split_space] in *. rewrite Hc, (IH Hw). reflexivity.
Qed.

Lemma append_space_not_empty (w s : string) :
  ((w ++ " " ++ s)%string =? "")%string = false.
Proof. destruct w; reflexivity. Qed.

(** X12. The token middleware takes the second word of the [authorization]
    header for the token, whatever the first word is and whatever follows
    the second: with no header, a header of one word, or two spaces after
    the first word, it answers 401; otherwise the route runs iff
    [jwt.verify] accepts that word, with its payload as [req.user], and the
    answer is 403 if not.  The scheme ("Bearer") is never looked at. *)
Theorem authenticateToken_outcomes (verify : string -> option jwt_user) :
  authenticateToken verify None
  = inl (res 401 (Message "No token provided"))
  /\ (forall word, no_space word = true ->
        authenticateToken verify (Some word)
        = inl (res 401 (Message "No token provided")))
  /\ (forall scheme rest, no_space scheme = true ->
        authenticateToken verify (Some (scheme ++ "  " ++ rest)%string)
        = inl (res 401 (Message "No token provided")))
  /\ (forall scheme token, no_space scheme = true -> no_space token = true ->
        token <> ""%string ->
        let outcome :=
          match verify token with
          | None => inl (res 403 (Message "Invalid token"))
          | Some payload => inr payload
          end in
        authenticateToken verify (Some (scheme ++ " " ++ token)%string)
        = outcome
        /\ forall rest,
             authenticateToken verify
               (Some (scheme ++ " " ++ token ++ " " ++ rest)%string)
             = outcome).
Proof.
  split; [reflexivity|]. split; [|split].
  - intros word Hw. unfold authenticateToken.
    destruct (word =? "")%string; [reflexivity|].
    now rewrite (split_space_last word Hw).
  - intros scheme rest Hs. unfold authenticateToken.
    change (scheme ++ "  " ++ rest)%string
      with (scheme ++ " " ++ ("" ++ " " ++ rest))%string.
    rewrite append_space_not_empty, (split_space_word scheme _ Hs).
    rewrite (split_space_word "" rest eq_refl). reflexivity.
  - intros scheme token Hs Ht Hne. cbv zeta.
    assert (Hne' : (token =? "")%string = false) by now apply String.eqb_neq.
    split; [|intros rest]; unfold authenticateToken;
      rewrite append_space_not_empty, (split_space_word scheme _ Hs).
    + rewrite (split_space_last token Ht). simpl. now rewrite Hne'.
    + rewrite (split_space_word token rest Ht). simpl. now rewrite Hne'.
Qed.

(** ** Login, and the token it gives *)

Section LoginFacts.

Variable collate_eq : string -> string -> bool.
Variable compare : string -> string -> bool.
Variable sign : token_payload -> string.
Variable verify : string -> option token_payload.

Lemma login_token (phone_number password : option string)
    (accounts : list account) (token : string) :
  login collate_eq compare sign phone_number password accounts = inr token ->
  exists a phone pass,
    phone_number = Some phone /\ password = Some pass
    /\ In a accounts
    /\ collate_eq (acc_phone_number a) phone = true
    /\ compare pass (acc_password a) = true
    /\ token = sign (payload_of a).
Proof.
  unfold login, select_user_by_phone_number.
  destruct phone_number as [phone|]; [|intros H; discriminate H].
  destruct password as [pass|]; [|intros H; discriminate H].
  destruct ((phone =? "")%string || (pass =? "")%string);
    [intros H; discriminate H|].
  destruct (find _ accounts) as [a|] eqn:Hfind; [|intros H; discriminate H].
  destruct (compare pass (acc_password a)) eqn:Hcmp;
    [|intros H; discriminate H].
  intros [= <-]. apply find_some in Hfind as [Hin Hphone].
  exists a, phone, pass. repeat split; assumption.
Qed.

(** X13. A token of [POST /login] opens the routes as the row it was issued
    for.  When login answers with a token, some [users] row has the phone
    number given (up to the column's collation) and a hash that
    [bcrypt.compare] accepts for the password; sent back as the second word
    of the [authorization] header, the token passes the middleware with
    that row's id and role as [req.user], whatever the first word; and that
    [req.user] tells the role its row has.  Asked of the token library: a
    token it signed for a row verifies to the payload signed, is not empty
    and has no space. *)
Theorem login_token_opens_routes (accounts : list account)
    (phone_number password : option string) (token : string) :
  NoDup (map acc_id accounts) ->
  (forall a, In a accounts ->
     verify (sign (payload_of a)) = Some (payload_of a)
     /\ no_space (sign (payload_of a)) = true
     /\ sign (payload_of a) <> ""%string) ->
  login collate_eq compare sign phone_number password accounts = inr token ->
  exists a phone pass,
    phone_number = Some phone /\ password = Some pass
    /\ In a accounts
    /\ collate_eq (acc_phone_number a) phone = true
    /\ compare pass (acc_password a) = true
    /\ (forall scheme, no_space scheme = true ->
          authenticateToken (fun t => option_map req_user (verify t))
                            (Some (scheme ++ " " ++ token)%string)
          = inr (mk_jwt (acc_id a) (acc_role a)))
    /\ (forall d, users d = map as_user accounts ->
          genuine d (mk_jwt (acc_id a) (acc_role a))).
Proof.
  intros Hpk Hjwt Hlogin.
  destruct (login_token _ _ _ _ Hlogin)
    as (a & phone & pass & -> & -> & Hin & Hphone & Hcmp & ->).
  exists a, phone, pass. repeat split; try assumption.
  - intros scheme Hs. destruct (Hjwt a Hin) as (Hv & Hns & Hne).
    unfold authenticateToken.
    rewrite append_space_not_empty, (split_space_word scheme _ Hs).
    rewrite (split_space_last _ Hns). simpl.
    apply String.eqb_neq in Hne. rewrite Hne, Hv. reflexivity.
  - intros d Hd x Hx Hid. rewrite Hd in Hx.
    apply in_map_iff in Hx as (b & <- & Hb). simpl in *.
    now rewrite (nodup_key_inj acc_id accounts b a Hpk Hb Hin Hid).
Qed.

(** X14. What login tells without a token.  With both fields present and not
    empty, a phone number that no row has and a wrong password for a row
    that has it get the same answer, 400 "Invalid phone number or
    password"; and the handler answers nothing else than a token, that
    answer, or 400 "phone_number and password required" when a field is
    missing or empty. *)
Theorem login_refusals (accounts : list account)
    (phone_number password : option string) :
  (forall phone pass,
     phone_number = Some phone -> password = Some pass ->
     phone <> ""%string -> pass <> ""%string ->
     (forall a, In a accounts ->
        collate_eq (acc_phone_number a) phone = true ->
        compare pass (acc_password a) = false) ->
     login collate_eq compare sign phone_number password accounts
     = inl (res 400 (Message "Invalid phone number or password")))
  /\ (forall r,
        login collate_eq compare sign phone_number password accounts = inl r ->
        r = res 400 (Message "Invalid phone number or password")
        \/ (r = res 400 (Message "phone_number and password required")
            /\ (phone_number = None \/ phone_number = Some ""%string
                \/ password = None \/ password = Some ""%string))).
Proof.
  split.
  - intros phone pass -> -> Hp Hw Hbad.
    unfold login, select_user_by_phone_number.
    apply String.eqb_neq in Hp, Hw. rewrite Hp, Hw. simpl.
    destruct (find _ accounts) as [a|] eqn:Hfind; [|reflexivity].
    apply find_some in Hfind as [Hin Hphone].
    now rewrite (Hbad a Hin Hphone).
  - intros r. unfold login.
    destruct phone_number as [phone|]; [|intros [= <-]; right; auto].
    destruct password as [pass|]; [|intros [= <-]; right; auto].
    destruct (phone =? "")%string eqn:Hp.
    { apply String.eqb_eq in Hp as ->. intros [= <-]. right. auto. }
    destruct (pass =? "")%string eqn:Hw.
    { apply String.eqb_eq in Hw as ->. intros [= <-]. right. auto 6. }
    simpl. destruct (select_user_by_phone_number _ _) as [a|];
      [|intros [= <-]; now left].
    destruct (compare pass (acc_password a)); [intros H; discriminate H|].
    intros [= <-]. now left.
Qed.

End LoginFacts.

(** ** Lab tests and calendar events: who may change a row *)

Lemma authorizeRoles_eqb (role : string) (u : jwt_user) :
  authorizeRoles [role] u = (jwt_role u =? role)%string.
Proof. unfold authorizeRoles; simpl. apply orb_false_r. Qed.

(** X15. [PUT /lab-tests/:id/complete] changes the caller's own test and no
    other row: afterwards each row is what it was, but for the rows of the
    id given that belong to the caller, a patient, which are completed.
    The answer is 200 iff there is such a row; for another patient's test,
    an id no test has, or a caller who is no patient, nothing changes. *)
Theorem complete_lab_test_own_only (u : jwt_user) (id : Z)
    (lab_tests : list lab_test) :
  Forall2 (fun t t' =>
             if (lt_id t =? id) && (lt_patient_user_id t =? jwt_id u)
                && (jwt_role u =? "patient")%string
             then t' = set_status "completed" t else t' = t)
          lab_tests (snd (complete_lab_test u id lab_tests))
  /\ (res_status (fst (complete_lab_test u id lab_tests)) = 200 <->
      jwt_role u = "patient"
      /\ exists t, In t lab_tests /\ lt_id t = id
                   /\ lt_patient_user_id t = jwt_id u)
  /\ (res_status (fst (complete_lab_test u id lab_tests)) <> 200 ->
      snd (complete_lab_test u id lab_tests) = lab_tests).
Proof.
  unfold complete_lab_test, update_lab_test_completed.
  rewrite authorizeRoles_eqb.
  destruct (jwt_role u =? "patient")%string eqn:Hrole; simpl.
  - apply String.eqb_eq in Hrole.
    destruct (List.length (filter _ lab_tests) =? 0)%nat eqn:Hn; simpl.
    + apply Nat.eqb_eq, length_zero_iff_nil in Hn.
      pose proof (proj1 (filter_nil_iff _ _) Hn) as Hnone.
      split; [|split].
      * clear Hn. induction lab_tests as [|t l IH]; constructor.
        -- unfold lab_test_of in Hnone.
           rewrite (Hnone t (or_introl eq_refl)). reflexivity.
        -- apply IH. intros x Hx. apply Hnone. now right.
      * split; [intros H; discriminate H|].
        intros (_ & t & Hin & Hid & Hp). specialize (Hnone t Hin).
        unfold lab_test_of in Hnone.
        apply Z.eqb_eq in Hid, Hp. rewrite Hid, Hp in Hnone.
        discriminate Hnone.
      * reflexivity.
    + split; [|split].
      * clear Hn. induction lab_tests as [|t l IH]; constructor; [|exact IH].
        unfold lab_test_of. rewrite andb_true_r.
        destruct (_ && _); reflexivity.
      * split; [intros _|reflexivity]. split; [exact Hrole|].
        destruct (filter _ lab_tests) as [|t l] eqn:Hf; [discriminate Hn|].
        assert (Hin : In t (filter (lab_test_of id (jwt_id u)) lab_tests))
          by (rewrite Hf; now left).
        apply filter_In in Hin as [Hin Hhit]. unfold lab_test_of in Hhit.
        apply andb_true_iff in Hhit as [Hid Hp].
        apply Z.eqb_eq in Hid, Hp. now exists t.
      * intros H. now contradiction H.
  - apply String.eqb_neq in Hrole. split; [|split].
    + induction lab_tests as [|t l IH]; constructor; [|exact IH].
      rewrite andb_false_r. reflexivity.
    + split; [intros H; discriminate H|]. intros [H _]. now contradiction.
    + reflexivity.
Qed.

(** X16. [DELETE /calendar/events/:id] removes the caller's own event and
    nothing else.  With event ids unique: a row is left iff it was there
    and is not the caller's event of that id; the answer is 200 iff the
    caller owns an event of that id, 403 iff another user does, 404 iff
    none has it; every event of another user stays. *)
Theorem delete_event_own_only (u : jwt_user) (id : Z)
    (calendar_events : list calendar_event) :
  NoDup (map ev_id calendar_events) ->
  let out := delete_event u id calendar_events in
  (forall e, In e (snd out) <->
             In e calendar_events
             /\ ~ (ev_id e = id /\ ev_user_id e = jwt_id u))
  /\ (res_status (fst out) = 200 <->
      exists e, In e calendar_events /\ ev_id e = id
                /\ ev_user_id e = jwt_id u)
  /\ (res_status (fst out) = 403 <->
      exists e, In e calendar_events /\ ev_id e = id
                /\ ev_user_id e <> jwt_id u)
  /\ (res_status (fst out) = 404 <->
      forall e, In e calendar_events -> ev_id e <> id).
Proof.
  intros Hpk. cbv zeta. unfold delete_event, select_event_owner.
  destruct (find _ calendar_events) as [o|] eqn:Hfind; simpl.
  - apply find_some in Hfind as [Ho Hoid]. apply Z.eqb_eq in Hoid.
    assert (Huniq : forall e, In e calendar_events -> ev_id e = id -> e = o).
    { intros e He Hid.
      apply (nodup_key_inj ev_id calendar_events e o Hpk He Ho). congruence. }
    destruct (ev_user_id o =? jwt_id u) eqn:Hown; simpl.
    + apply Z.eqb_eq in Hown. split; [|split; [|split]].
      * intros e. unfold delete_calendar_event. rewrite filter_In.
        rewrite negb_true_iff, Z.eqb_neq. split.
        -- intros [He Hne]. split; [exact He|]. intros [Hid _]. now apply Hne.
        -- intros [He Hnot]. split; [exact He|]. intros Hid.
           apply Hnot. split; [exact Hid|].
           now rewrite (Huniq e He Hid).
      * split; [intros _; now exists o|reflexivity].
      * split; [intros H; discriminate H|].
        intros (e & He & Hid & Hne). rewrite (Huniq e He Hid) in Hne.
        now contradiction.
      * split; [intros H; discriminate H|].
        intros H. now contradiction (H o Ho).
    + apply Z.eqb_neq in Hown. split; [|split; [|split]].
      * intros e. split; [intros He; split; [exact He|]|now intros [He _]].
        intros [Hid Hu]. rewrite (Huniq e He Hid) in Hu. now contradiction.
      * split; [intros H; discriminate H|].
        intros (e & He & Hid & Hu). rewrite (Huniq e He Hid) in Hu.
        now contradiction.
      * split; [intros _; now exists o|reflexivity].
      * split; [intros H; discriminate H|].
        intros H. now contradiction (H o Ho).
  - pose proof (proj1 (find_none_iff _ _) Hfind) as Hnone.
    assert (Hno : forall e, In e calendar_events -> ev_id e <> id).
    { intros e He. apply Z.eqb_neq. now apply Hnone. }
    split; [|split; [|split]].
    + intros e. split; [intros He; split; [exact He|]|now intros [He _]].
      intros [Hid _]. now apply (Hno e He).
    + split; [intros H; discriminate H|].
      intros (e & He & Hid & _). now contradiction (Hno e He).
    + split; [intros H; discriminate H|].
      intros (e & He & Hid & _). now contradiction (Hno e He).
    + split; [intros _; exact Hno|reflexivity].
Qed.

(** ** The theorems at concrete inputs *)





Lemma roles_bound_writes_witness :
  (Forall (fun r => jwt_role (caller r) <> "doctor") patient_traffic
   /\ map slot_ident
          (doctor_slots
             (serve_all new_york_2025 as_written patient_traffic example_db))
      = map slot_ident (doctor_slots example_db))
  /\ (Forall (fun r => jwt_role (caller r) <> "patient") doctor_traffic
      /\ incl (appointments
                 (serve_all new_york_2025 as_written doctor_traffic
                            example_db))
              (appointments example_db)).
Proof.
  assert (H1 : Forall (fun r => jwt_role (caller r) <> "doctor")
                      patient_traffic)
    by (repeat constructor; simpl; intros H; discriminate H).
  assert (H2 : Forall (fun r => jwt_role (caller r) <> "patient")
                      doctor_traffic)
    by (repeat constructor; simpl; intros H; discriminate H).
  split; (split; [assumption|]).
  - exact (proj1 (roles_bound_writes new_york_2025 as_written
                    patient_traffic example_db) H1).
  - exact (proj2 (roles_bound_writes new_york_2025 as_written
                    doctor_traffic example_db) H2).
Defined.

Lemma publish_rejects_whole_list_witness :
  jwt_role (mk_jwt 10 "doctor") = "doctor"
  /\ validateDateTimeSQL "2025-03-02 09:00:00" = true
  /\ validateDateTimeSQL "tomorrow" = false
  /\ post_doctor_slots as_written (mk_jwt 10 "doctor")
       ["2025-03-02 09:00:00"; "tomorrow"; "2025-03-02 10:00:00"] example_db
     = (res 400 (Message (invalid_slot_format "tomorrow")), example_db).
Proof.
  split; [reflexivity|]. split; [reflexivity|]. split; [reflexivity|].
  apply (proj2 (publish_rejects_whole_list as_written (mk_jwt 10 "doctor")
                  ["2025-03-02 09:00:00"; "tomorrow"; "2025-03-02 10:00:00"]
                  example_db eq_refl)
           ["2025-03-02 09:00:00"] "tomorrow" ["2025-03-02 10:00:00"]).
  - reflexivity.
  - intros x [<-|[]]. reflexivity.
  - reflexivity.
Defined.

(** Slot 1 of [example_db] booked; two more bookings, of slot 2 and of a
    slot that is not there; then slot 1 asked for again. *)
Lemma booked_slot_refuses_witness :
  res_status (fst (post_appointments new_york_2025 (mk_jwt 20 "patient") 1
                     "2025-02-10 08:00:00" example_db)) = 201
  /\ Forall is_booking
        [Book (mk_jwt 21 "patient") 2 "2025-02-10 08:00:01";
         Book (mk_jwt 22 "patient") 7 "2025-02-10 08:00:02"]
  /\ jwt_role (mk_jwt 21 "patient") = "patient"
  /\ post_appointments new_york_2025 (mk_jwt 21 "patient") 1
       "2025-02-10 08:00:03"
       (serve_all new_york_2025 as_written
          [Book (mk_jwt 21 "patient") 2 "2025-02-10 08:00:01";
           Book (mk_jwt 22 "patient") 7 "2025-02-10 08:00:02"]
          (snd (post_appointments new_york_2025 (mk_jwt 20 "patient") 1
                  "2025-02-10 08:00:00" example_db)))
     = (res 409 (Message "Slot already booked"),
        serve_all new_york_2025 as_written
          [Book (mk_jwt 21 "patient") 2 "2025-02-10 08:00:01";
           Book (mk_jwt 22 "patient") 7 "2025-02-10 08:00:02"]
          (snd (post_appointments new_york_2025 (mk_jwt 20 "patient") 1
                  "2025-02-10 08:00:00" example_db))).
Proof.
  assert (Hrs : Forall is_booking
                  [Book (mk_jwt 21 "patient") 2 "2025-02-10 08:00:01";
                   Book (mk_jwt 22 "patient") 7 "2025-02-10 08:00:02"])
    by (repeat constructor).
  split; [reflexivity|]. split; [exact Hrs|]. split; [reflexivity|].
  exact (booked_slot_refuses new_york_2025 as_written (mk_jwt 20 "patient")
           (mk_jwt 21 "patient") 1 "2025-02-10 08:00:00"
           "2025-02-10 08:00:03" _ example_db eq_refl Hrs eq_refl).
Defined.

Lemma cancel_once_witness :
  res_status (fst (cancel_appointment new_york_2025 (mk_jwt 22 "patient") 1
                     example_db))
  = 200
  /\ cancel_appointment new_york_2025 (mk_jwt 10 "doctor") 1
       (snd (cancel_appointment new_york_2025 (mk_jwt 22 "patient") 1
               example_db))
     = (res 404 (Message "Appointment not found"),
        snd (cancel_appointment new_york_2025 (mk_jwt 22 "patient") 1
               example_db)).
Proof.
  split; [reflexivity|].
  apply (cancel_once new_york_2025 (mk_jwt 22 "patient") (mk_jwt 10 "doctor")
           1 example_db).
  reflexivity.
Defined.

Lemma deleted_slot_is_gone_witness :
  res_status (fst (delete_doctor_slots_id (mk_jwt 10 "doctor") 1 example_db))
  = 200
  /\ post_appointments new_york_2025 (mk_jwt 20 "patient") 1
       "2025-02-10 08:00:00"
       (snd (delete_doctor_slots_id (mk_jwt 10 "doctor") 1 example_db))
     = (res 404 (Message "Slot not found"),
        snd (delete_doctor_slots_id (mk_jwt 10 "doctor") 1 example_db))
  /\ forall row,
       In row (select_doctor_slots 10
                 (snd (delete_doctor_slots_id (mk_jwt 10 "doctor") 1
                         example_db))) ->
       fst (fst row) <> 1.
Proof.
  split; [reflexivity|].
  destruct (deleted_slot_is_gone new_york_2025 (mk_jwt 10 "doctor")
              (mk_jwt 20 "patient") 1
              "2025-02-10 08:00:00" example_db eq_refl
              ltac:(discriminate) eq_refl) as (Hbook & _ & Hlist & _).
  split; [exact Hbook|exact Hlist].
Defined.

Lemma published_slots_are_listed_witness :
  res_status (fst (post_doctor_slots as_written (mk_jwt 10 "doctor")
                     ["2025-03-02 09:00:00"; "2025-03-01 10:00:00"]
                     example_db)) = 201
  /\ is_user 10 example_db = true
  /\ exists slot_id is_booked,
       In (slot_id, "2025-03-02 09:00:00", is_booked)
          (select_doctor_slots 10
             (snd (post_doctor_slots as_written (mk_jwt 10 "doctor")
                     ["2025-03-02 09:00:00"; "2025-03-01 10:00:00"]
                     example_db))).
Proof.
  split; [reflexivity|]. split; [reflexivity|].
  apply (proj1 (published_slots_are_listed as_written (mk_jwt 10 "doctor")
                  ["2025-03-02 09:00:00"; "2025-03-01 10:00:00"] example_db
                  eq_refl eq_refl)).
  now left.
Defined.

(** The slot of [gap_db] booked in New York time: the appointment listed is
    at 03:30. *)
Lemma booked_appointment_is_listed_witness :
  res_status (fst (post_appointments new_york_2025 (mk_jwt 20 "patient") 1
                     "2025-02-10 08:00:00" gap_db)) = 201
  /\ exists (id : Z) (slot : doctor_slot) (scheduledAt : DATETIME),
       select_slot_join_doctor 1 gap_db = Some slot
       /\ new_york_2025 (ds_slot_at slot) = Some scheduledAt
       /\ fst (post_appointments new_york_2025 (mk_jwt 20 "patient") 1
                 "2025-02-10 08:00:00" gap_db)
          = res 201 (Booking id 20 (ds_doctor_user_id slot)
                             (Some scheduledAt) 1)
       /\ In (mk_appt id 20 (ds_doctor_user_id slot) scheduledAt "booked"
                "2025-02-10 08:00:00")
             (select_appointments_of_patient 20
                (snd (post_appointments new_york_2025 (mk_jwt 20 "patient") 1
                        "2025-02-10 08:00:00" gap_db)))
       /\ In (mk_appt id 20 (ds_doctor_user_id slot) scheduledAt "booked"
                "2025-02-10 08:00:00")
             (select_appointments_of_doctor (ds_doctor_user_id slot)
                (snd (post_appointments new_york_2025 (mk_jwt 20 "patient") 1
                        "2025-02-10 08:00:00" gap_db))).
Proof.
  split; [reflexivity|].
  destruct (booked_appointment_is_listed new_york_2025 (mk_jwt 20 "patient")
              (mk_jwt 10 "doctor") 1 "2025-02-10 08:00:00" gap_db
              eq_refl)
    as (id & slot & scheduledAt & Hsel & Htz & Hres & Hp & Hd & _).
  exists id, slot, scheduledAt. split; [exact Hsel|]. split; [exact Htz|].
  split; [exact Hres|]. split; [exact Hp|exact Hd].
Defined.

Lemma accepted_timestamps_witness :
  validateDateTimeSQL "2025-03-01 10:00:00" = true
  /\ String.length "2025-03-01 10:00:00" = 19%nat
  /\ exists date time,
       "2025-03-01 10:00:00" = (date ++ " " ++ time)%string
       /\ validateDateISO date = true
       /\ matches "dd:dd:dd" time = true.
Proof.
  split; [reflexivity|]. split.
  - exact (proj1 (proj2 (accepted_timestamps "2025-03-01 10:00:00"))
             eq_refl).
  - exact (proj1 (proj1 (accepted_timestamps "2025-03-01 10:00:00"))
             eq_refl).
Defined.

Lemma authenticateToken_outcomes_witness :
  no_space "Token" = true /\ no_space "jwt.5550010" = true
  /\ "jwt.5550010" <> ""
  /\ authenticateToken (fun t => option_map req_user (example_verify t))
       (Some "Token jwt.5550010 and more")
     = inr (mk_jwt 10 "doctor")
  /\ authenticateToken (fun t => option_map req_user (example_verify t))
       (Some "Bearer  jwt.5550010")
     = inl (res 401 (Message "No token provided")).
Proof.
  split; [reflexivity|]. split; [reflexivity|].
  split; [intros H; discriminate H|].
  destruct (authenticateToken_outcomes
              (fun t => option_map req_user (example_verify t)))
    as (_ & _ & Hdouble & Hsecond).
  split.
  - exact (proj2 (Hsecond "Token" "jwt.5550010" eq_refl eq_refl
                    ltac:(discriminate)) "and more").
  - exact (Hdouble "Bearer" "jwt.5550010" eq_refl).
Defined.

Lemma example_tokens (a : account) :
  In a example_accounts ->
  example_verify (example_sign (payload_of a)) = Some (payload_of a)
  /\ no_space (example_sign (payload_of a)) = true
  /\ example_sign (payload_of a) <> "".
Proof.
  intros [<-|[<-|[]]]; (repeat split; [intros H; discriminate H]).
Qed.

Lemma example_accounts_pk : NoDup (map acc_id example_accounts).
Proof. apply (nodupb_sound Z.eqb); [apply Z.eqb_eq|reflexivity]. Qed.

Lemma login_token_opens_routes_witness :
  NoDup (map acc_id example_accounts)
  /\ (forall a, In a example_accounts ->
        example_verify (example_sign (payload_of a)) = Some (payload_of a)
        /\ no_space (example_sign (payload_of a)) = true
        /\ example_sign (payload_of a) <> "")
  /\ login String.eqb example_compare example_sign
       (Some "5550010") (Some "secret10") example_accounts
     = inr "jwt.5550010"
  /\ exists a phone pass,
       Some "5550010" = Some phone /\ Some "secret10" = Some pass
       /\ In a example_accounts
       /\ (acc_phone_number a =? phone)%string = true
       /\ example_compare pass (acc_password a) = true
       /\ (forall scheme, no_space scheme = true ->
             authenticateToken
               (fun t => option_map req_user (example_verify t))
               (Some (scheme ++ " " ++ "jwt.5550010")%string)
             = inr (mk_jwt (acc_id a) (acc_role a)))
       /\ (forall d, users d = map as_user example_accounts ->
             genuine d (mk_jwt (acc_id a) (acc_role a))).
Proof.
  split; [exact example_accounts_pk|]. split; [exact example_tokens|].
  split; [reflexivity|].
  exact (login_token_opens_routes String.eqb example_compare example_sign
           example_verify example_accounts (Some "5550010") (Some "secret10")
           "jwt.5550010" example_accounts_pk example_tokens eq_refl).
Defined.

Lemma login_refusals_witness :
  "5550099" <> "" /\ "secret10" <> ""
  /\ (forall a, In a example_accounts ->
        (acc_phone_number a =? "5550099")%string = true ->
        example_compare "secret10" (acc_password a) = false)
  /\ login String.eqb example_compare example_sign
       (Some "5550099") (Some "secret10") example_accounts
     = inl (res 400 (Message "Invalid phone number or password"))
  /\ login String.eqb example_compare example_sign
       (Some "5550010") (Some "guess") example_accounts
     = inl (res 400 (Message "Invalid phone number or password")).
Proof.
  assert (Hp : "5550099" <> "") by (intros H; discriminate H).
  assert (Hw : "secret10" <> "") by (intros H; discriminate H).
  assert (Hg : "guess" <> "") by (intros H; discriminate H).
  assert (Hp' : "5550010" <> "") by (intros H; discriminate H).
  assert (Hnone : forall a, In a example_accounts ->
            (acc_phone_number a =? "5550099")%string = true ->
            example_compare "secret10" (acc_password a) = false)
    by (intros a [<-|[<-|[]]] H; discriminate H).
  assert (Hwrong : forall a, In a example_accounts ->
            (acc_phone_number a =? "5550010")%string = true ->
            example_compare "guess" (acc_password a) = false)
    by (intros a [<-|[<-|[]]] H; first [reflexivity|discriminate H]).
  split; [exact Hp|]. split; [exact Hw|]. split; [exact Hnone|]. split.
  - exact (proj1 (login_refusals String.eqb example_compare example_sign
                    example_accounts (Some "5550099") (Some "secret10"))
             "5550099" "secret10" eq_refl eq_refl Hp Hw Hnone).
  - exact (proj1 (login_refusals String.eqb example_compare example_sign
                    example_accounts (Some "5550010") (Some "guess"))
             "5550010" "guess" eq_refl eq_refl Hp' Hg Hwrong).
Defined.

Lemma complete_lab_test_own_only_witness :
  res_status (fst (complete_lab_test (mk_jwt 21 "patient") 1
                     example_lab_tests)) <> 200
  /\ snd (complete_lab_test (mk_jwt 21 "patient") 1 example_lab_tests)
     = example_lab_tests
  /\ res_status (fst (complete_lab_test (mk_jwt 20 "patient") 1
                        example_lab_tests)) = 200.
Proof.
  assert (H : res_status (fst (complete_lab_test (mk_jwt 21 "patient") 1
                                 example_lab_tests)) <> 200)
    by (intros H; discriminate H).
  split; [exact H|]. split.
  - exact (proj2 (proj2 (complete_lab_test_own_only (mk_jwt 21 "patient") 1
                           example_lab_tests)) H).
  - apply (proj1 (proj2 (complete_lab_test_own_only (mk_jwt 20 "patient") 1
                           example_lab_tests))).
    split; [reflexivity|].
    exists (mk_lab_test 1 20 "blood count" "2025-03-03" "pending" None).
    split; [now left|split; reflexivity].
Defined.

Lemma example_events_pk : NoDup (map ev_id example_events).
Proof. apply (nodupb_sound Z.eqb); [apply Z.eqb_eq|reflexivity]. Qed.

Lemma delete_event_own_only_witness :
  NoDup (map ev_id example_events)
  /\ res_status (fst (delete_event (mk_jwt 20 "patient") 2 example_events))
     = 403
  /\ res_status (fst (delete_event (mk_jwt 20 "patient") 1 example_events))
     = 200
  /\ forall e,
       In e (snd (delete_event (mk_jwt 20 "patient") 1 example_events)) <->
       In e example_events /\ ~ (ev_id e = 1 /\ ev_user_id e = 20).
Proof.
  split; [exact example_events_pk|]. split; [reflexivity|].
  split; [reflexivity|].
  exact (proj1 (delete_event_own_only (mk_jwt 20 "patient") 1 example_events
                  example_events_pk)).
Defined.
